(** * Plant water-stress scripts: the scoring core of gemine.py and llava.py

    The two scripts compute a vegetation index from an image, blend it with
    weather and soil inputs into one stress score, derive an irrigation
    volume and a status, and ask a remote model to rate its own answer.

    Numbers.  Python floats are modelled by exact rationals ([Q]): every
    arithmetic operation is the exact one, and literals such as [1.2] are
    the decimal fractions written in the source.  Results are compared with
    [==] (equality of fractions).  The module [Binary64] repeats the scoring
    expressions of the main script over IEEE doubles and runs the end-to-end
    scenarios there as well.

    Strings.  A Python [str] is modelled by [string], a sequence of 8-bit
    characters (the UTF-8 bytes of the text).  The builtins of module [Py]
    are those of Python on ASCII text: case mapping, digit and whitespace
    tests act on the ASCII range.  No character outside ASCII lower-cases
    to a letter that occurs in one of the soil keywords or in "no", so the
    keyword tests agree with Python on every text.  The digit and whitespace
    tests of Python also accept characters outside ASCII: the confidence
    parsers are therefore given a second time, in module [Parser], over any
    type of characters and with the builtins as parameters. *)

From Stdlib Require Import QArith Qabs Qround Qminmax Lqa ZArith Lia.
From Stdlib Require Import String Ascii List Bool.
From Stdlib Require Import DecimalString DecimalNat.
From Stdlib Require Import PrimFloat.
From stdpp Require Import gmap strings.

Open Scope Q_scope.

(** ** Python builtins *)

Module Py.

(** [a < b] as a boolean. *)
Definition ltb (a b : Q) : bool := negb (Qle_bool b a).

(** [max(a, b)]: the first argument, unless the second is greater. *)
Definition max (a b : Q) : Q := if ltb a b then b else a.

(** [min(a, b)]: the first argument, unless the second is smaller. *)
Definition min (a b : Q) : Q := if ltb b a then b else a.

(** [abs(x)]. *)
Definition abs (x : Q) : Q := Qabs x.

(** Nearest integer, ties to the even one. *)
Definition round_half_even (x : Q) : Z :=
  let f := Qfloor x in
  let d := x - inject_Z f in
  if ltb d (1 # 2) then f
  else if ltb (1 # 2) d then (f + 1)%Z
  else if Z.even f then f else (f + 1)%Z.

(** [round(x, ndigits)] for [ndigits >= 0]: the nearest multiple of
    [10 ** -ndigits], ties to the even multiple. *)
Definition round (x : Q) (ndigits : nat) : Q :=
  let p := inject_Z (10 ^ Z.of_nat ndigits) in
  inject_Z (round_half_even (x * p)) / p.

(** Characters. *)
Definition is_upper (c : ascii) : bool :=
  let n := nat_of_ascii c in (65 <=? n)%nat && (n <=? 90)%nat.

Definition lower_char (c : ascii) : ascii :=
  if is_upper c then ascii_of_nat (nat_of_ascii c + 32) else c.

(** [ch.isascii()]. *)
Definition isascii (c : ascii) : bool := (nat_of_ascii c <? 128)%nat.

(** [ch.isdigit()] on an ASCII character. *)
Definition isdigit (c : ascii) : bool :=
  let n := nat_of_ascii c in (48 <=? n)%nat && (n <=? 57)%nat.

(** The ASCII whitespace [str.strip()] removes: tab, line feed, vertical
    tab, form feed, carriage return, the separators 0x1c-0x1f and the
    space. *)
Definition isspace (c : ascii) : bool :=
  let n := nat_of_ascii c in
  ((9 <=? n)%nat && (n <=? 13)%nat) || ((28 <=? n)%nat && (n <=? 32)%nat).

(** [s.lower()], on the ASCII letters of [s]. *)
Fixpoint lower (s : string) : string :=
  match s with
  | EmptyString => EmptyString
  | String c t => String (lower_char c) (lower t)
  end.

(** [hay.startswith(needle)]. *)
Fixpoint startswith (needle hay : string) : bool :=
  match needle, hay with
  | EmptyString, _ => true
  | String _ _, EmptyString => false
  | String a n', String b h' =>
      if Ascii.eqb a b then startswith n' h' else false
  end.

(** [needle in hay]: [needle] occurs in [hay] as a contiguous substring. *)
Fixpoint str_in (needle hay : string) : bool :=
  if startswith needle hay then true
  else match hay with
       | EmptyString => false
       | String _ t => str_in needle t
       end.

(** [''.join(ch for ch in s if keep(ch))]. *)
Fixpoint join_if (keep : ascii -> bool) (s : string) : string :=
  match s with
  | EmptyString => EmptyString
  | String c t => if keep c then String c (join_if keep t) else join_if keep t
  end.

(** [s.lstrip()], [s.rstrip()] and [s.strip()], on ASCII text. *)
Fixpoint lstrip (s : string) : string :=
  match s with
  | EmptyString => EmptyString
  | String c t => if isspace c then lstrip t else s
  end.

Fixpoint rstrip (s : string) : string :=
  match s with
  | EmptyString => EmptyString
  | String c t =>
      match rstrip t with
      | EmptyString => if isspace c then EmptyString else String c EmptyString
      | r => String c r
      end
  end.

Definition strip (s : string) : string := rstrip (lstrip s).

(** Exceptions, and a computation that returns or raises. *)
Inductive exn : Type := ValueError.

Definition result (A : Type) : Type := (exn + A)%type.

Definition ret {A} (a : A) : result A := inr a.
Definition raise {A} (e : exn) : result A := inl e.
Definition bind {A B} (m : result A) (k : A -> result B) : result B :=
  match m with
  | inl e => inl e
  | inr a => k a
  end.

(** [try: body  except: handler] with a bare [except]. *)
Definition try_except {A} (body : result A) (handler : result A) : result A :=
  match body with
  | inl _ => handler
  | inr a => inr a
  end.

(** The value of a run of decimal digits, read after the digits [acc];
    [None] when a character is not a decimal digit. *)
Fixpoint digits_value (acc : Z) (s : string) : option Z :=
  match s with
  | EmptyString => Some acc
  | String c t =>
      if isdigit c
      then digits_value (10 * acc + Z.of_nat (nat_of_ascii c - 48)) t
      else None
  end.

(** Splits at the first decimal point. *)
Fixpoint split_point (s : string) : string * option string :=
  match s with
  | EmptyString => (EmptyString, None)
  | String c t =>
      if Ascii.eqb c "."
      then (EmptyString, Some t)
      else let '(i, f) := split_point t in (String c i, f)
  end.

(** [float(s)] on the ASCII texts this program gives it, which hold decimal
    digits and points only: [digits], [digits.], [.digits] and [digits.digits] are
    numbers; the empty text, a lone point and a text with two points raise
    [ValueError]. *)
Definition float (s : string) : result Q :=
  match split_point s with
  | (i, None) =>
      match i, digits_value 0 i with
      | String _ _, Some n => ret (inject_Z n)
      | _, _ => raise ValueError
      end
  | (i, Some f) =>
      match digits_value 0 i, digits_value 0 f with
      | Some n, Some m =>
          if ((String.length i + String.length f)%nat =? 0)%nat
          then raise ValueError
          else ret (inject_Z n
                    + inject_Z m / inject_Z (10 ^ Z.of_nat (String.length f)))
      | _, _ => raise ValueError
      end
  end.

End Py.

(** ** The numpy operations the scripts use *)

Module Np.

(** One pixel of an RGB image: three 8-bit channel values. *)
Record pixel : Type := Pixel { red : Z; green : Z; blue : Z }.

(** [np.array(img)]: the rows of the image.  [mean] and [std] reduce over
    all the elements, whatever the row they are in. *)
Definition image : Type := list (list pixel).

(** [arr[:, :, k]] flattened, as floats. *)
Definition channel (k : pixel -> Z) (arr : image) : list Q :=
  map (fun p => inject_Z (k p)) (concat arr).

(** [np.clip(x, lo, hi)]. *)
Definition clip (x lo hi : Q) : Q := Qmin (Qmax x lo) hi.

Definition sum (xs : list Q) : Q := fold_right Qplus 0 xs.

(** [np.mean(xs)]; [None] stands for the [nan] numpy gives on no element. *)
Definition mean (xs : list Q) : option Q :=
  match xs with
  | nil => None
  | _ => Some (sum xs / inject_Z (Z.of_nat (length xs)))
  end.

Section Std.

(** The square root of the floating-point unit. *)
Variable sqrt : Q -> Q.

(** [np.std(xs)]: the root of the mean squared deviation from the mean. *)
Definition std (xs : list Q) : option Q :=
  match mean xs with
  | None => None
  | Some mu =>
      match mean (map (fun x => Qabs (x - mu) * Qabs (x - mu)) xs) with
      | None => None
      | Some v => Some (sqrt v)
      end
  end.

End Std.

(** [np.array(img)] flattened: every channel value of every pixel. *)
Definition values (arr : image) : list Q :=
  flat_map (fun p => [inject_Z (red p); inject_Z (green p); inject_Z (blue p)])
           (concat arr).

(** [x.astype(np.uint8)] on a value of [0,255]: the fraction is dropped. *)
Definition astype_uint8 (x : Q) : Z := Qfloor x.

End Np.

(** ** The HTTP client, seen from the scripts

    What [requests.post] gives back to llava.py: an exception, or a response
    with a status code and a body that [r.json()] decodes or rejects. *)

Module Requests.

(** A computation that returns, or raises an [Exception] whose text
    [str(e)] is the message.  What is not an [Exception] (an interrupt from
    the keyboard, an exit) is not modelled. *)
Definition exc (A : Type) : Type := (string + A)%type.

Definition bind {A B} (m : exc A) (k : A -> exc B) : exc B :=
  match m with
  | inl e => inl e
  | inr a => k a
  end.

(** [try: body  except Exception as e: handler(e)]. *)
Definition try_except {A} (body : exc A) (handler : string -> exc A) : exc A :=
  match body with
  | inl e => handler e
  | inr a => inr a
  end.

(** A value of a decoded JSON object: a string, or a value of another
    Python type, named as [type(v).__name__] names it. *)
Inductive value : Type :=
| Str (s : string)
| NotStr (type_name : string).

(** A decoded JSON document: an object, or a value of another type. *)
Inductive json : Type :=
| Object (fields : gmap string value)
| NotObject (type_name : string).

Record response : Type := Response { status_code : Z; body : exc json }.

(** The text of the [AttributeError] for a missing method. *)
Definition attribute_error (type_name attr : string) : string :=
  "'" +:+ type_name +:+ "' object has no attribute '" +:+ attr +:+ "'".

(** [j.get(key, default)]. *)
Definition get (j : json) (key : string) (default : value) : exc value :=
  match j with
  | Object fields =>
      inr (match fields !! key with Some v => v | None => default end)
  | NotObject t => inl (attribute_error t "get")
  end.

(** [v.strip()]. *)
Definition strip (v : value) : exc string :=
  match v with
  | Str s => inr (Py.strip s)
  | NotStr t => inl (attribute_error t "strip")
  end.

End Requests.

(** ** gemine.py *)

Module Gemine.

Definition compute_rgvi (img : Np.image) : option Q :=
  let red := Np.channel Np.red img in
  let green := Np.channel Np.green img in
  let rgvi := map (fun '(g, r) => (g - r) / (g + r + 1e-5)) (combine green red) in
  Np.mean (map (fun x => Np.clip x (-1) 1) rgvi).

Definition compute_weather_stress (temp_c humidity : Q) : Q :=
  let temp_stress := Py.max 0 (Py.abs (temp_c - 25) / 20) in
  let hum_stress := Py.max 0 (Py.abs (humidity - 65) / 50) in
  Py.min 1 ((temp_stress + hum_stress) / 2).

Definition soil_modifier (soil_type : string) : Q :=
  let s := Py.lower soil_type in
  if Py.str_in "sandy" s then 1.2
  else if Py.str_in "clay" s then 1.1
  else if Py.str_in "loam" s then 0.9
  else 1.0.

(** The default of the parameter [plant_size]. *)
Definition plant_size_default : string := "medium".

Definition base_water : gmap string Q :=
  {[ "small"%string := 0.5; "medium"%string := 1.5; "large"%string := 3.0 ]}.

Definition irrigation_recommendation (stress_score : Q) (plant_size : string) : Q :=
  Py.round (default 1.5 (base_water !! plant_size) * stress_score * 2) 2.

Section Confidence.

Variable sqrt : Q -> Q.

(** [min(1.0, nan)] is [1.0]: no comparison with [nan] holds. *)
Definition confidence_from_rgvi (img : Np.image) : Q :=
  match Np.std sqrt (Np.channel Np.green img) with
  | Some std_val => Py.min 1.0 (std_val / 50.0)
  | None => 1.0
  end.

End Confidence.

Definition water_deficit_index (stress_score : Q) : Q :=
  Py.round stress_score 2.

(** [get_accuracy_from_gemini], from the text of the model's reply on. *)
Definition get_accuracy_from_gemini (response_text : string) : Py.result (option Q) :=
  let text := Py.strip response_text in
  Py.try_except
    (let number := Py.join_if (fun ch => Py.isdigit ch || Ascii.eqb ch ".") text in
     Py.bind (Py.float number) (fun confidence_percent =>
     let confidence_percent := Py.max 0 (Py.min confidence_percent 100) in
     Py.ret (Some confidence_percent)))
    (Py.ret None).

(** The main script, from the vegetation index and the user's inputs on. *)
Definition ndvi_stress (rgvi_score : Q) : Q :=
  1 - Py.max 0 (Py.min 1 ((rgvi_score + 1) / 2)).

Definition combined_stress (rgvi_score temp_c humidity : Q) (soil_type : string) : Q :=
  let weather_stress := compute_weather_stress temp_c humidity in
  let combined_stress :=
    (0.5 * ndvi_stress rgvi_score + 0.5 * weather_stress) * soil_modifier soil_type in
  Py.min 1 combined_stress.

Definition stress_status (combined_stress : Q) : string :=
  if Py.ltb combined_stress 0.3 then "Low water stress – plant looks healthy."
  else if Py.ltb combined_stress 0.6 then "Moderate water stress – some irrigation may help."
  else "High water stress – urgent watering required.".

Definition irrigation_need (combined_stress : Q) : Q :=
  irrigation_recommendation combined_stress plant_size_default.

Definition wdi (combined_stress : Q) : Q := water_deficit_index combined_stress.

Section Blank.

Variable sqrt : Q -> Q.

(** [nan < 5] is false. *)
Definition is_blank_image (img : Np.image) : bool :=
  match Np.std sqrt (Np.values img) with
  | Some std_val => Py.ltb std_val 5
  | None => false
  end.

End Blank.

Definition enhance_vegetation (img : Np.image) : Np.image :=
  map (map (fun p =>
         let g := Np.clip (inject_Z (Np.green p) * 1.5) 0 255 in
         let r := Np.clip (inject_Z (Np.red p) * 0.5) 0 255 in
         let b := Np.clip (inject_Z (Np.blue p) * 0.5) 0 255 in
         Np.Pixel (Np.astype_uint8 r) (Np.astype_uint8 g) (Np.astype_uint8 b)))
      img.

(** The main script: the vegetation index of the loaded image. *)
Definition rgvi_score (image : Np.image) : option Q :=
  compute_rgvi (enhance_vegetation image).

(** The main script: the test on Gemini's verdict that ends the run. *)
Definition not_a_plant (validation : string) : bool :=
  Py.str_in "no" (Py.lower validation).

End Gemine.

(** ** llava.py *)

Module Llava.

Definition compute_rgvi (img : Np.image) : option Q :=
  let red := Np.channel Np.red img in
  let green := Np.channel Np.green img in
  let rgvi := map (fun '(g, r) => (g - r) / (g + r + 1e-5)) (combine green red) in
  Np.mean (map (fun x => Np.clip x (-1) 1) rgvi).

Definition compute_weather_stress (temp_c humidity : Q) : Q :=
  let temp_stress := Py.max 0 (Py.abs (temp_c - 25) / 20) in
  let hum_stress := Py.max 0 (Py.abs (humidity - 65) / 50) in
  Py.min 1 ((temp_stress + hum_stress) / 2).

Definition soil_modifier (soil_type : string) : Q :=
  let s := Py.lower soil_type in
  if Py.str_in "sandy" s then 1.2
  else if Py.str_in "clay" s then 1.1
  else if Py.str_in "loam" s then 0.9
  else 1.0.

Definition water_deficit_index (stress_score : Q) : Q :=
  Py.round stress_score 2.

Definition plant_size_default : string := "medium".

Definition base_water : gmap string Q :=
  {[ "small"%string := 0.5; "medium"%string := 1.5; "large"%string := 3.0 ]}.

Definition irrigation_recommendation (stress_score : Q) (plant_size : string) : Q :=
  Py.round (default 1.5 (base_water !! plant_size) * stress_score * 2) 2.

Section Confidence.

Variable sqrt : Q -> Q.

Definition confidence_from_rgvi (img : Np.image) : Q :=
  match Np.std sqrt (Np.channel Np.green img) with
  | Some std_val => Py.min 1.0 (std_val / 50.0)
  | None => 1.0
  end.

End Confidence.

(** [get_accuracy_from_llm], from the text [ask_llm] returned on. *)
Definition get_accuracy_from_llm (result : string) : Py.result (option Q) :=
  Py.try_except
    (Py.bind
       (Py.float (Py.join_if (fun ch => Py.isdigit ch || Ascii.eqb ch ".") result))
       (fun confidence_percent =>
        let confidence_percent := Py.min 100.0 (Py.max 0.0 confidence_percent) in
        Py.ret (Some confidence_percent)))
    (Py.ret None).

(** The main script, from the vegetation index and the user's inputs on. *)
Definition ndvi_stress (rgvi_score : Q) : Q :=
  1 - Py.max 0 (Py.min 1 ((rgvi_score + 1) / 2)).

Definition combined_stress (rgvi_score temp_c humidity : Q) (soil_type : string) : Q :=
  let weather_stress := compute_weather_stress temp_c humidity in
  let combined_stress :=
    (0.5 * ndvi_stress rgvi_score + 0.5 * weather_stress) * soil_modifier soil_type in
  Py.min 1 combined_stress.

Definition stress_status (combined_stress : Q) : string :=
  if Py.ltb combined_stress 0.3 then "Low water stress – plant looks healthy."
  else if Py.ltb combined_stress 0.6 then "Moderate water stress – some irrigation may help."
  else "High water stress – urgent watering required.".

Definition wdi (combined_stress : Q) : Q := water_deficit_index combined_stress.

Definition irrigation_need (combined_stress : Q) : Q :=
  irrigation_recommendation combined_stress "medium".

Section Blank.

Variable sqrt : Q -> Q.

(** [nan < 5] is false. *)
Definition is_blank_image (img : Np.image) : bool :=
  match Np.std sqrt (Np.values img) with
  | Some std_val => Py.ltb std_val 5
  | None => false
  end.

End Blank.

Definition enhance_vegetation (img : Np.image) : Np.image :=
  map (map (fun p =>
         let g := Np.clip (inject_Z (Np.green p) * 1.5) 0 255 in
         let r := Np.clip (inject_Z (Np.red p) * 0.5) 0 255 in
         let b := Np.clip (inject_Z (Np.blue p) * 0.5) 0 255 in
         Np.Pixel (Np.astype_uint8 r) (Np.astype_uint8 g) (Np.astype_uint8 b)))
      img.

(** The main script: the vegetation index of the loaded image. *)
Definition rgvi_score (image : Np.image) : option Q :=
  compute_rgvi (enhance_vegetation image).

(** The main script: the test on LLaVA's verdict that ends the run. *)
Definition not_a_plant (llava_result : string) : bool :=
  Py.str_in "no" (Py.lower llava_result).

(** [validate_image], from the outcome of its [requests.post] on. *)
Definition validate_image (post : Requests.exc Requests.response) : Requests.exc string :=
  Requests.try_except
    (Requests.bind post (fun r =>
     if (Requests.status_code r =? 200)%Z
     then Requests.bind (Requests.body r) (fun j =>
          Requests.bind (Requests.get j "response" (Requests.Str "")) Requests.strip)
     else inr "Error validating image"%string))
    (fun e => inr ("Error: " +:+ e)).

(** [ask_llm], from the outcome of its [requests.post] on. *)
Definition ask_llm (post : Requests.exc Requests.response) : Requests.exc string :=
  Requests.try_except
    (Requests.bind post (fun r =>
     if (Requests.status_code r =? 200)%Z
     then Requests.bind (Requests.body r) (fun j =>
          Requests.bind (Requests.get j "response" (Requests.Str "")) Requests.strip)
     else inr "Error: LLM failed"%string))
    (fun e => inr ("Error: " +:+ e)).

End Llava.

(** ** The confidence parsers over any characters

    The two parsers once more, for a text that is a list of characters of
    any type, with the builtins they call as parameters: [ch.isdigit()],
    [ch == '.'], [text.strip()] and [float(number)]. *)

Module Parser.

Section Builtins.

Variable char : Type.
Variable isdigit : char -> bool.
Variable is_point : char -> bool.
Variable strip : list char -> list char.
Variable float : list char -> Py.result Q.

Definition get_accuracy_from_gemini (response_text : list char)
  : Py.result (option Q) :=
  let text := strip response_text in
  Py.try_except
    (let number := List.filter (fun ch => isdigit ch || is_point ch) text in
     Py.bind (float number) (fun confidence_percent =>
     let confidence_percent := Py.max 0 (Py.min confidence_percent 100) in
     Py.ret (Some confidence_percent)))
    (Py.ret None).

Definition get_accuracy_from_llm (result : list char) : Py.result (option Q) :=
  Py.try_except
    (Py.bind
       (float (List.filter (fun ch => isdigit ch || is_point ch) result))
       (fun confidence_percent =>
        let confidence_percent := Py.min 100.0 (Py.max 0.0 confidence_percent) in
        Py.ret (Some confidence_percent)))
    (Py.ret None).

End Builtins.

End Parser.

(** ** The scoring of the main script in binary64 arithmetic

    The same expressions over IEEE doubles, to run the end-to-end scenarios
    with the rounding of the machine. *)

Module Binary64.

Definition max (a b : float) : float := if PrimFloat.ltb a b then b else a.

Definition min (a b : float) : float := if PrimFloat.ltb b a then b else a.

Definition compute_weather_stress (temp_c humidity : float) : float :=
  let temp_stress := max 0 (PrimFloat.abs (temp_c - 25) / 20)%float in
  let hum_stress := max 0 (PrimFloat.abs (humidity - 65) / 50)%float in
  min 1 ((temp_stress + hum_stress) / 2)%float.

Definition soil_modifier (soil_type : string) : float :=
  let s := Py.lower soil_type in
  if Py.str_in "sandy" s then 1.2%float
  else if Py.str_in "clay" s then 1.1%float
  else if Py.str_in "loam" s then 0.9%float
  else 1.0%float.

Definition ndvi_stress (rgvi_score : float) : float :=
  (1 - max 0 (min 1 ((rgvi_score + 1) / 2)))%float.

Definition combined_stress (rgvi_score temp_c humidity : float) (soil_type : string)
  : float :=
  let weather_stress := compute_weather_stress temp_c humidity in
  let combined_stress :=
    ((0.5 * ndvi_stress rgvi_score + 0.5 * weather_stress)
     * soil_modifier soil_type)%float in
  min 1 combined_stress.

Definition stress_status (combined_stress : float) : string :=
  if PrimFloat.ltb combined_stress 0.3 then "Low water stress – plant looks healthy."
  else if PrimFloat.ltb combined_stress 0.6
       then "Moderate water stress – some irrigation may help."
  else "High water stress – urgent watering required.".

End Binary64.

(** ** Vocabulary of the properties *)

(** [k] occurs in [s]: [s] is some text, then [k], then some text. *)
Definition contains (k s : string) : Prop :=
  exists pre post : string, s = pre +:+ k +:+ post.

(** The other case of an ASCII letter; any other character is kept. *)
Definition swap_ascii_case (c : ascii) : ascii :=
  let n := nat_of_ascii c in
  if (65 <=? n)%nat && (n <=? 90)%nat then ascii_of_nat (n + 32)
  else if (97 <=? n)%nat && (n <=? 122)%nat then ascii_of_nat (n - 32)
  else c.

(** Two characters that are equal, or the two cases of one ASCII letter. *)
Definition same_letter (c d : ascii) : Prop := d = c \/ d = swap_ascii_case c.

(** Two texts that differ in the case of their ASCII letters only. *)
Inductive ascii_case_variant : string -> string -> Prop :=
| cv_nil : ascii_case_variant EmptyString EmptyString
| cv_cons c d s t :
    same_letter c d -> ascii_case_variant s t ->
    ascii_case_variant (String c s) (String d t).

(** Every character of [s] passes the test [p]. *)
Fixpoint all_chars (p : ascii -> bool) (s : string) : bool :=
  match s with
  | EmptyString => true
  | String c t => p c && all_chars p t
  end.

(** The test of the scrubbing step: a decimal digit or a point. *)
Definition digit_or_point (ch : ascii) : bool := Py.isdigit ch || Ascii.eqb ch ".".

(** The outcome of either parser when [float] has the outcome [parse] on
    the scrubbed reply: [None] when it raises, its value clamped to [0,100]
    when not. *)
Definition parsed (parse : Py.result Q) (outcome : Py.result (option Q)) : Prop :=
  (parse = inl Py.ValueError /\ outcome = inr None)
  \/ (exists q c, parse = inr q /\ outcome = inr (Some c)
                  /\ 0 <= c <= 100 /\ c == Qmax 0 (Qmin q 100)).

(** The decimal numeral of a natural number, as [str(n)] writes it. *)
Definition decimal (n : nat) : string := NilEmpty.string_of_uint (Nat.to_uint n).

(** Every channel of every pixel of an image passes the test [P]. *)
Definition all_pixels (P : Np.pixel -> Prop) (img : Np.image) : Prop :=
  Forall (Forall P) img.

(** A pixel as an image file holds it: three bytes. *)
Definition byte_pixel (p : Np.pixel) : Prop :=
  (0 <= Np.red p <= 255)%Z /\ (0 <= Np.green p <= 255)%Z
  /\ (0 <= Np.blue p <= 255)%Z.

(** The index of one pixel, before the mean. *)
Definition pixel_index (p : Np.pixel) : Q :=
  Np.clip ((inject_Z (Np.green p) - inject_Z (Np.red p))
           / (inject_Z (Np.green p) + inject_Z (Np.red p) + 1e-5)) (-1) 1.

(** The square root rounded down to a whole number: a stand-in for the
    square root of the floating-point unit, to run [std] on examples. *)
Definition floor_sqrt (x : Q) : Q := inject_Z (Z.sqrt (Qfloor x)).

(** The text of a reply the HTTP client can use: status 200 and a JSON
    object whose "response" field is a string, or is missing (read as the
    empty text). *)
Definition reply_text (post : Requests.exc Requests.response) : option string :=
  match post with
  | inr r =>
      if (Requests.status_code r =? 200)%Z
      then match Requests.body r with
           | inr (Requests.Object fields) =>
               match fields !! "response"%string with
               | Some (Requests.Str t) => Some t
               | Some (Requests.NotStr _) => None
               | None => Some EmptyString
               end
           | _ => None
           end
      else None
  | inl _ => None
  end.

(** * Properties *)

(** ** The builtins on examples *)

Example round_ties : Py.round 0.125 2 == 0.12 /\ Py.round 0.135 2 == 0.14
                     /\ Py.round (-0.5) 0 == 0 /\ Py.round 0.001 2 == 0.
Proof. vm_compute. intuition congruence. Qed.

Example float_examples :
  Py.float "85" = inr 85 /\ Py.float "85." = inr (85 + 0 / 1)
  /\ Py.float "" = inl Py.ValueError /\ Py.float "." = inl Py.ValueError
  /\ Py.float "1.2.3" = inl Py.ValueError.
Proof. vm_compute. intuition congruence. Qed.

(** ** Comparisons, [min] and [max] *)

Lemma ltb_spec (a b : Q) : reflect (a < b) (Py.ltb a b).
Proof.
  unfold Py.ltb. destruct (Qle_bool b a) eqn:E; constructor.
  - apply Qle_bool_iff in E. intro H. lra.
  - destruct (Qlt_le_dec a b) as [H | H]; [exact H |].
    apply Qle_bool_iff in H. congruence.
Qed.

Lemma py_max_cases (a b : Q) :
  (a < b /\ Py.max a b = b) \/ (b <= a /\ Py.max a b = a).
Proof. unfold Py.max. destruct (ltb_spec a b); [left | right]; split; auto; lra. Qed.

Lemma py_min_cases (a b : Q) :
  (b < a /\ Py.min a b = b) \/ (a <= b /\ Py.min a b = a).
Proof. unfold Py.min. destruct (ltb_spec b a); [left | right]; split; auto; lra. Qed.

Ltac py_minmax :=
  repeat match goal with
  | |- context [Py.max ?a ?b] =>
      let H := fresh in let E := fresh in
      destruct (py_max_cases a b) as [[H E] | [H E]]; rewrite E in *; clear E
  | |- context [Py.min ?a ?b] =>
      let H := fresh in let E := fresh in
      destruct (py_min_cases a b) as [[H E] | [H E]]; rewrite E in *; clear E
  | _ : context [Py.max ?a ?b] |- _ =>
      let H := fresh in let E := fresh in
      destruct (py_max_cases a b) as [[H E] | [H E]]; rewrite E in *; clear E
  | _ : context [Py.min ?a ?b] |- _ =>
      let H := fresh in let E := fresh in
      destruct (py_min_cases a b) as [[H E] | [H E]]; rewrite E in *; clear E
  end.

(** Division by a literal, as a product, for linear arithmetic. *)
Ltac qconst :=
  unfold Qdiv in *;
  repeat match goal with
  | |- context [Qinv ?c] =>
      let v := eval vm_compute in (Qinv c) in change (Qinv c) with v
  | H : context [Qinv ?c] |- _ =>
      let v := eval vm_compute in (Qinv c) in change (Qinv c) with v in H
  end.

(** ** Weather stress *)

Lemma weather_stress_bounds (t h : Q) :
  0 <= Gemine.compute_weather_stress t h <= 1.
Proof.
  unfold Gemine.compute_weather_stress, Py.abs.
  pose proof (Qabs_nonneg (t - 25)). pose proof (Qabs_nonneg (h - 65)).
  qconst. py_minmax; lra.
Qed.

Lemma weather_stress_mono (a1 a2 b1 b2 : Q) :
  0 <= a1 <= a2 -> 0 <= b1 <= b2 ->
  Py.min 1 ((Py.max 0 (a1 / 20) + Py.max 0 (b1 / 50)) / 2)
  <= Py.min 1 ((Py.max 0 (a2 / 20) + Py.max 0 (b2 / 50)) / 2).
Proof. intros Ha Hb. qconst. py_minmax; lra. Qed.

(** C2. The weather stress is 0 at the ideal point (25 degrees, 65 percent),
    does not decrease when the temperature moves away from 25 at a fixed
    humidity, nor when the humidity moves away from 65 at a fixed
    temperature, and never exceeds 1; in both scripts. *)
Theorem C2_weather_stress :
  Gemine.compute_weather_stress 25 65 == 0
  /\ Llava.compute_weather_stress 25 65 == 0
  /\ (forall h t1 t2, Qabs (t1 - 25) <= Qabs (t2 - 25) ->
        Gemine.compute_weather_stress t1 h <= Gemine.compute_weather_stress t2 h
        /\ Llava.compute_weather_stress t1 h <= Llava.compute_weather_stress t2 h)
  /\ (forall t h1 h2, Qabs (h1 - 65) <= Qabs (h2 - 65) ->
        Gemine.compute_weather_stress t h1 <= Gemine.compute_weather_stress t h2
        /\ Llava.compute_weather_stress t h1 <= Llava.compute_weather_stress t h2)
  /\ (forall t h, Gemine.compute_weather_stress t h <= 1
                  /\ Llava.compute_weather_stress t h <= 1).
Proof.
  repeat split; try reflexivity.
  - apply weather_stress_mono; split; auto using Qabs_nonneg; lra.
  - apply weather_stress_mono; split; auto using Qabs_nonneg; lra.
  - apply weather_stress_mono; split; auto using Qabs_nonneg; lra.
  - apply weather_stress_mono; split; auto using Qabs_nonneg; lra.
  - apply weather_stress_bounds.
  - apply (weather_stress_bounds t h).
Qed.

Lemma C2_weather_stress_witness :
  Qabs (30 - 25) <= Qabs (10 - 25)
  /\ Gemine.compute_weather_stress 30 50 <= Gemine.compute_weather_stress 10 50.
Proof.
  assert (H : Qabs (30 - 25) <= Qabs (10 - 25)) by (vm_compute; discriminate).
  split; [exact H |].
  exact (proj1 (proj1 (proj2 (proj2 C2_weather_stress)) 50 30 10 H)).
Defined.

(** ** Combined stress *)

Lemma soil_modifier_values (soil_type : string) :
  Gemine.soil_modifier soil_type = 1.2 \/ Gemine.soil_modifier soil_type = 1.1
  \/ Gemine.soil_modifier soil_type = 0.9 \/ Gemine.soil_modifier soil_type = 1.0.
Proof.
  unfold Gemine.soil_modifier.
  destruct (Py.str_in "sandy" _); [auto |].
  destruct (Py.str_in "clay" _); [auto |].
  destruct (Py.str_in "loam" _); auto.
Qed.

Lemma ndvi_stress_bounds (rgvi_score : Q) :
  0 <= Gemine.ndvi_stress rgvi_score <= 1.
Proof. unfold Gemine.ndvi_stress. qconst. py_minmax; lra. Qed.

Lemma combined_stress_bounds (rgvi_score temp_c humidity : Q) (soil_type : string) :
  0 <= Gemine.combined_stress rgvi_score temp_c humidity soil_type <= 1.
Proof.
  unfold Gemine.combined_stress.
  pose proof (ndvi_stress_bounds rgvi_score) as Hn.
  pose proof (weather_stress_bounds temp_c humidity) as Hw.
  set (n := Gemine.ndvi_stress rgvi_score) in *.
  set (w := Gemine.compute_weather_stress temp_c humidity) in *.
  destruct (soil_modifier_values soil_type) as [E | [E | [E | E]]];
    rewrite E; py_minmax; lra.
Qed.

(** C1. Whatever the vegetation index, the temperature, the humidity and
    the soil text, the combined stress score
    [min(1, (0.5*vegStress + 0.5*weatherStress) * soil_modifier)] lies in
    [0,1]; in both scripts. *)
Theorem C1_combined_stress_in_unit_interval
  (rgvi_score temp_c humidity : Q) (soil_type : string) :
  0 <= Gemine.combined_stress rgvi_score temp_c humidity soil_type <= 1
  /\ 0 <= Llava.combined_stress rgvi_score temp_c humidity soil_type <= 1.
Proof. split; apply combined_stress_bounds. Qed.

(** C3. Vegetation index -1.0, 45 degrees, 10 percent humidity and soil
    "sandy": the combined stress is exactly 1 (clamped from 1.2) and the
    status is the high-water-stress one; in both scripts. *)
Theorem C3_end_to_end_high :
  Gemine.combined_stress (-1.0) 45 10 "sandy" == 1.0
  /\ Gemine.stress_status (Gemine.combined_stress (-1.0) 45 10 "sandy")
     = "High water stress – urgent watering required."%string
  /\ Llava.combined_stress (-1.0) 45 10 "sandy" == 1.0
  /\ Llava.stress_status (Llava.combined_stress (-1.0) 45 10 "sandy")
     = "High water stress – urgent watering required."%string.
Proof. vm_compute. repeat split. Qed.

(** The score before the final clamp, in the scenario of C3. *)
Example C3_before_clamp :
  (0.5 * Gemine.ndvi_stress (-1.0) + 0.5 * Gemine.compute_weather_stress 45 10)
  * Gemine.soil_modifier "sandy" == 1.2.
Proof. vm_compute. reflexivity. Qed.

(** The scenario of C3 in binary64 arithmetic: 1.2 before the clamp (the
    humidity term 55/50 is rounded, the sum is capped at 1), 1 after it. *)
Example C3_binary64 :
  Binary64.combined_stress (-1.0) 45 10 "sandy" = 1%float
  /\ Binary64.stress_status (Binary64.combined_stress (-1.0) 45 10 "sandy")
     = "High water stress – urgent watering required."%string.
Proof. vm_compute. split; reflexivity. Qed.

(** C4. Vegetation index 1.0, 25 degrees, 65 percent humidity and soil
    "loam": the combined stress is 0 and the status is the
    low-water-stress one; in both scripts. *)
Theorem C4_end_to_end_low :
  Gemine.combined_stress 1.0 25 65 "loam" == 0
  /\ Gemine.stress_status (Gemine.combined_stress 1.0 25 65 "loam")
     = "Low water stress – plant looks healthy."%string
  /\ Llava.combined_stress 1.0 25 65 "loam" == 0
  /\ Llava.stress_status (Llava.combined_stress 1.0 25 65 "loam")
     = "Low water stress – plant looks healthy."%string.
Proof. vm_compute. repeat split. Qed.

(** The scenario of C4 in binary64 arithmetic. *)
Example C4_binary64 :
  Binary64.combined_stress 1.0 25 65 "loam" = 0%float
  /\ Binary64.stress_status (Binary64.combined_stress 1.0 25 65 "loam")
     = "Low water stress – plant looks healthy."%string.
Proof. vm_compute. split; reflexivity. Qed.

(** Inputs that are not numbers: no comparison with [nan] holds, so [max]
    and [min] keep their first argument and the score is 0. *)
Example nan_binary64 :
  Binary64.combined_stress nan nan nan "peat" = 0%float
  /\ Binary64.combined_stress neg_infinity infinity neg_infinity "sandy" = 1%float.
Proof. vm_compute. split; reflexivity. Qed.

(** ** Rounding *)


Lemma ltb_comp (a a' b b' : Q) : a == a' -> b == b' -> Py.ltb a b = Py.ltb a' b'.
Proof. intros Ha Hb. unfold Py.ltb. now rewrite Ha, Hb. Qed.

Lemma round_half_even_comp (x y : Q) :
  x == y -> Py.round_half_even x = Py.round_half_even y.
Proof.
  intros E. unfold Py.round_half_even.
  rewrite (Qfloor_comp x y E).
  rewrite (ltb_comp (x - inject_Z (Qfloor y)) (y - inject_Z (Qfloor y)) (1 # 2) (1 # 2));
    [| rewrite E; reflexivity | reflexivity].
  rewrite (ltb_comp (1 # 2) (1 # 2) (x - inject_Z (Qfloor y)) (y - inject_Z (Qfloor y)));
    [| reflexivity | rewrite E; reflexivity].
  reflexivity.
Qed.

Lemma round_half_even_Z (k : Z) : Py.round_half_even (inject_Z k) = k.
Proof.
  unfold Py.round_half_even. rewrite Qfloor_Z.
  destruct (ltb_spec (inject_Z k - inject_Z k) (1 # 2)); [reflexivity | lra].
Qed.




(** ** Irrigation volume *)

Lemma base_water_lookup (plant_size : string) :
  Gemine.base_water !! plant_size
  = if String.eqb plant_size "small" then Some 0.5
    else if String.eqb plant_size "medium" then Some 1.5
    else if String.eqb plant_size "large" then Some 3.0
    else None.
Proof.
  unfold Gemine.base_water.
  destruct (String.eqb_spec plant_size "small") as [-> | H1]; [reflexivity |].
  rewrite lookup_insert_ne by congruence.
  destruct (String.eqb_spec plant_size "medium") as [-> | H2]; [reflexivity |].
  rewrite lookup_insert_ne by congruence.
  destruct (String.eqb_spec plant_size "large") as [-> | H3]; [reflexivity |].
  apply lookup_singleton_ne. congruence.
Qed.

Lemma irrigation_same (stress_score : Q) (plant_size : string) :
  Gemine.irrigation_recommendation stress_score plant_size
  = Llava.irrigation_recommendation stress_score plant_size.
Proof. reflexivity. Qed.





(** ** Water deficit index *)




(** ** Substrings and case *)

Lemma app_nil_l (s : string) : EmptyString +:+ s = s.
Proof. reflexivity. Qed.

Lemma app_cons (c : ascii) (s t : string) : String c s +:+ t = String c (s +:+ t).
Proof. reflexivity. Qed.

Lemma startswith_spec (needle hay : string) :
  Py.startswith needle hay = true <-> exists post, hay = needle +:+ post.
Proof.
  revert hay. induction needle as [| a n IH]; intros hay; simpl.
  - split; [intros _; now exists hay | reflexivity].
  - destruct hay as [| b h].
    + split; [discriminate | intros [post E]; rewrite app_cons in E; discriminate].
    + destruct (Ascii.eqb_spec a b) as [-> | Hne].
      * rewrite IH. split; intros [post E]; exists post;
          rewrite ?app_cons in *; congruence.
      * split; [discriminate | intros [post E]; rewrite app_cons in E; congruence].
Qed.

Lemma startswith_intro (needle post : string) :
  Py.startswith needle (needle +:+ post) = true.
Proof. apply startswith_spec. now exists post. Qed.

Lemma str_in_spec (needle hay : string) :
  Py.str_in needle hay = true <-> contains needle hay.
Proof.
  unfold contains. induction hay as [| b h IH]; simpl.
  - destruct (Py.startswith needle EmptyString) eqn:E.
    + split; [intros _ | reflexivity].
      apply startswith_spec in E. destruct E as [post E].
      now exists EmptyString, post.
    + split; [discriminate |]. intros (pre & post & E').
      destruct pre; [| rewrite app_cons in E'; discriminate].
      rewrite app_nil_l in E'. rewrite E', startswith_intro in E. discriminate.
  - destruct (Py.startswith needle (String b h)) eqn:E.
    + split; [intros _ | reflexivity].
      apply startswith_spec in E. destruct E as [post E].
      now exists EmptyString, post.
    + rewrite IH. split.
      * intros (pre & post & ->). now exists (String b pre), post.
      * intros (pre & post & E'). destruct pre as [| c pre].
        -- rewrite app_nil_l in E'. rewrite E', startswith_intro in E. discriminate.
        -- rewrite app_cons in E'. injection E' as _ ->. now exists pre, post.
Qed.

Lemma lower_char_idem (c : ascii) : Py.lower_char (Py.lower_char c) = Py.lower_char c.
Proof. destruct c as [[] [] [] [] [] [] [] []]; reflexivity. Qed.

Lemma lower_swap_case (c : ascii) :
  Py.lower_char (swap_ascii_case c) = Py.lower_char c.
Proof. destruct c as [[] [] [] [] [] [] [] []]; reflexivity. Qed.

Lemma same_letter_lower (c d : ascii) :
  same_letter c d -> Py.lower_char c = Py.lower_char d.
Proof. intros [-> | ->]; [reflexivity | symmetry; apply lower_swap_case]. Qed.

Lemma lower_idem (s : string) : Py.lower (Py.lower s) = Py.lower s.
Proof. induction s as [| c s IH]; simpl; [| rewrite lower_char_idem, IH]; reflexivity. Qed.

Lemma case_variant_lower (s t : string) :
  ascii_case_variant s t -> Py.lower s = Py.lower t.
Proof.
  induction 1 as [| c d s t Hcd _ IH]; simpl; [reflexivity |].
  now rewrite (same_letter_lower c d Hcd), IH.
Qed.

Lemma lower_app (s t : string) : Py.lower (s +:+ t) = Py.lower s +:+ Py.lower t.
Proof.
  induction s as [| c s IH]; [reflexivity |].
  rewrite app_cons. simpl. now rewrite IH, app_cons.
Qed.

(** A keyword that occurs in a text occurs in its lower-case form. *)
Lemma contains_lower (k s : string) :
  Py.lower k = k -> contains k s -> contains k (Py.lower s).
Proof.
  intros Hk (pre & post & ->). exists (Py.lower pre), (Py.lower post).
  now rewrite !lower_app, Hk.
Qed.

Lemma soil_modifier_same (soil_type : string) :
  Gemine.soil_modifier soil_type = Llava.soil_modifier soil_type.
Proof. reflexivity. Qed.

Lemma soil_modifier_lower_eq (s t : string) :
  Py.lower s = Py.lower t -> Gemine.soil_modifier s = Gemine.soil_modifier t.
Proof. intros E. unfold Gemine.soil_modifier. now rewrite E. Qed.

Lemma soil_modifier_sandy (s : string) :
  contains "sandy" (Py.lower s) -> Gemine.soil_modifier s = 1.2.
Proof.
  intros H. apply str_in_spec in H. unfold Gemine.soil_modifier. now rewrite H.
Qed.

Lemma not_contains (k s : string) : ~ contains k s -> Py.str_in k s = false.
Proof.
  intros H. destruct (Py.str_in k s) eqn:E; [| reflexivity].
  apply str_in_spec in E. contradiction.
Qed.

Lemma soil_modifier_clay (s : string) :
  ~ contains "sandy" (Py.lower s) -> contains "clay" (Py.lower s) ->
  Gemine.soil_modifier s = 1.1.
Proof.
  intros H1 H2. apply not_contains in H1. apply str_in_spec in H2.
  unfold Gemine.soil_modifier. now rewrite H1, H2.
Qed.

Lemma soil_modifier_loam (s : string) :
  ~ contains "sandy" (Py.lower s) -> ~ contains "clay" (Py.lower s) ->
  contains "loam" (Py.lower s) -> Gemine.soil_modifier s = 0.9.
Proof.
  intros H1 H2 H3. apply not_contains in H1, H2. apply str_in_spec in H3.
  unfold Gemine.soil_modifier. now rewrite H1, H2, H3.
Qed.

Lemma soil_modifier_default (s : string) :
  ~ contains "sandy" (Py.lower s) -> ~ contains "clay" (Py.lower s) ->
  ~ contains "loam" (Py.lower s) -> Gemine.soil_modifier s = 1.0.
Proof.
  intros H1 H2 H3. apply not_contains in H1, H2, H3.
  unfold Gemine.soil_modifier. now rewrite H1, H2, H3.
Qed.

(** ** Soil modifier *)

(** The claim of C6 fails as it stands: "sandy clay" contains "clay" and is
    mapped to 1.2, not to 1.1.  Nor is every case variant mapped alike: the
    text "ſandy", with a long s, does not contain "sandy" and is mapped to
    1.0, while its upper-case form "SANDY" is mapped to 1.2. *)
Lemma C6_clay_shadowed :
  contains "clay" "sandy clay"
  /\ Gemine.soil_modifier "sandy clay" == 1.2
  /\ ~ Gemine.soil_modifier "sandy clay" == 1.1
  /\ ~ Llava.soil_modifier "sandy clay" == 1.1
  /\ Gemine.soil_modifier "ſandy" == 1.0
  /\ Gemine.soil_modifier "SANDY" == 1.2.
Proof.
  split; [now exists "sandy "%string, EmptyString |].
  vm_compute. repeat split; discriminate.
Qed.

(** C6, amended.  [soil_modifier] gives the same value on two texts that
    differ only in the case of their ASCII letters, and on a text and its
    lower-case form; whatever the case of the letters, a text that contains
    "sandy" is mapped to 1.2, one that contains "clay" and not "sandy" to
    1.1, one that contains "loam" and neither "sandy" nor "clay" to 0.9, and
    one that contains none of the three to 1.0; in both scripts. *)
Theorem C6_soil_modifier (s : string) :
  (forall t, ascii_case_variant s t ->
             Gemine.soil_modifier s = Gemine.soil_modifier t)
  /\ Gemine.soil_modifier (Py.lower s) = Gemine.soil_modifier s
  /\ (contains "sandy" (Py.lower s) -> Gemine.soil_modifier s = 1.2)
  /\ (~ contains "sandy" (Py.lower s) -> contains "clay" (Py.lower s) ->
      Gemine.soil_modifier s = 1.1)
  /\ (~ contains "sandy" (Py.lower s) -> ~ contains "clay" (Py.lower s) ->
      contains "loam" (Py.lower s) -> Gemine.soil_modifier s = 0.9)
  /\ (~ contains "sandy" (Py.lower s) -> ~ contains "clay" (Py.lower s) ->
      ~ contains "loam" (Py.lower s) -> Gemine.soil_modifier s = 1.0)
  /\ Llava.soil_modifier s = Gemine.soil_modifier s.
Proof.
  split; [intros t H; apply soil_modifier_lower_eq, case_variant_lower, H |].
  split; [apply soil_modifier_lower_eq, lower_idem |].
  split; [apply soil_modifier_sandy |].
  split; [apply soil_modifier_clay |].
  split; [apply soil_modifier_loam |].
  split; [apply soil_modifier_default | reflexivity].
Qed.

Ltac same_letter_tac :=
  unfold same_letter; first [left; reflexivity | right; reflexivity].

Ltac absent :=
  let H := fresh in
  intros H; apply str_in_spec in H; vm_compute in H; discriminate H.

Lemma C6_soil_modifier_witness :
  Gemine.soil_modifier "Heavy CLAY" = Gemine.soil_modifier "heavy clay"
  /\ Gemine.soil_modifier "Heavy CLAY" = 1.1.
Proof.
  pose proof (C6_soil_modifier "Heavy CLAY") as (Hcase & _ & _ & Hclay & _).
  split.
  - apply Hcase. repeat (constructor; [same_letter_tac |]). constructor.
  - apply Hclay; [absent |].
    now exists "heavy "%string, EmptyString.
Defined.

(** The claim of C10 fails as it stands: "sandy clay loam" contains both
    "clay" and "loam" and yields 1.2, not 1.1. *)
Lemma C10_clay_loam_shadowed :
  contains "clay" "sandy clay loam" /\ contains "loam" "sandy clay loam"
  /\ Gemine.soil_modifier "sandy clay loam" == 1.2
  /\ ~ Gemine.soil_modifier "sandy clay loam" == 1.1
  /\ ~ Llava.soil_modifier "sandy clay loam" == 1.1.
Proof.
  split; [now exists "sandy "%string, " loam"%string |].
  split; [now exists "sandy clay "%string, EmptyString |].
  vm_compute. repeat split; discriminate.
Qed.

(** C10, amended.  The keywords are tried in the order sandy, clay, loam and
    the first one that occurs decides: a text that contains "sandy" yields
    1.2 whatever else it contains, in particular when it also contains
    "clay"; a text that contains "clay" and "loam" yields 1.1 when it does
    not contain "sandy"; in both scripts, for keywords in any case. *)
Theorem C10_soil_modifier_order (s : string) :
  (contains "sandy" s -> contains "clay" s -> Gemine.soil_modifier s = 1.2)
  /\ (contains "sandy" (Py.lower s) -> contains "clay" (Py.lower s) ->
      Gemine.soil_modifier s = 1.2)
  /\ (contains "sandy" (Py.lower s) -> contains "loam" (Py.lower s) ->
      Gemine.soil_modifier s = 1.2)
  /\ (~ contains "sandy" (Py.lower s) -> contains "clay" s -> contains "loam" s ->
      Gemine.soil_modifier s = 1.1)
  /\ (~ contains "sandy" (Py.lower s) ->
      contains "clay" (Py.lower s) -> contains "loam" (Py.lower s) ->
      Gemine.soil_modifier s = 1.1)
  /\ Llava.soil_modifier s = Gemine.soil_modifier s.
Proof.
  split; [intros H _; now apply soil_modifier_sandy, contains_lower |].
  split; [intros H _; now apply soil_modifier_sandy |].
  split; [intros H _; now apply soil_modifier_sandy |].
  split; [intros H1 H2 _; apply soil_modifier_clay; auto using contains_lower |].
  split; [intros H1 H2 _; now apply soil_modifier_clay | reflexivity].
Qed.

Lemma C10_soil_modifier_order_witness :
  Gemine.soil_modifier "sandy clay" = 1.2
  /\ Gemine.soil_modifier "silty clay loam" = 1.1.
Proof.
  split.
  - apply (proj1 (C10_soil_modifier_order "sandy clay")).
    + now exists EmptyString, " clay"%string.
    + now exists "sandy "%string, EmptyString.
  - apply (proj1 (proj2 (proj2 (proj2 (C10_soil_modifier_order "silty clay loam"))))).
    + absent.
    + now exists "silty "%string, " loam"%string.
    + now exists "silty clay "%string, EmptyString.
Defined.

(** ** Self-rated confidence *)

Lemma join_if_all (keep : ascii -> bool) (s : string) :
  all_chars keep (Py.join_if keep s) = true.
Proof.
  induction s as [| c s IH]; simpl; [reflexivity |].
  destruct (keep c) eqn:E; simpl; [rewrite E |]; exact IH.
Qed.

Lemma space_not_kept (c : ascii) : Py.isspace c = true -> digit_or_point c = false.
Proof. destruct c as [[] [] [] [] [] [] [] []]; vm_compute; congruence. Qed.

Lemma join_if_lstrip (s : string) :
  Py.join_if digit_or_point (Py.lstrip s) = Py.join_if digit_or_point s.
Proof.
  induction s as [| c s IH]; simpl; [reflexivity |].
  destruct (Py.isspace c) eqn:E; [| reflexivity].
  now rewrite (space_not_kept c E).
Qed.

Lemma join_if_rstrip (s : string) :
  Py.join_if digit_or_point (Py.rstrip s) = Py.join_if digit_or_point s.
Proof.
  induction s as [| c s IH]; simpl; [reflexivity |].
  destruct (Py.rstrip s) as [| d r] eqn:R.
  - simpl in IH. rewrite <- IH.
    destruct (Py.isspace c) eqn:E.
    + now rewrite (space_not_kept c E).
    + reflexivity.
  - simpl. now rewrite <- IH.
Qed.

(** Stripping the reply first does not change the scrubbed text. *)
Lemma join_if_strip (s : string) :
  Py.join_if digit_or_point (Py.strip s) = Py.join_if digit_or_point s.
Proof. unfold Py.strip. now rewrite join_if_rstrip, join_if_lstrip. Qed.

Lemma clamp_gemine (q : Q) :
  0 <= Py.max 0 (Py.min q 100) <= 100
  /\ Py.max 0 (Py.min q 100) == Qmax 0 (Qmin q 100).
Proof.
  split.
  - py_minmax; lra.
  - destruct (Q.min_spec q 100) as [[? Emin] | [? Emin]];
      destruct (Q.max_spec 0 (Qmin q 100)) as [[? Emax] | [? Emax]];
      set (m := Qmin q 100) in *; set (M := Qmax 0 m) in *;
      py_minmax; lra.
Qed.

Lemma clamp_llava (q : Q) :
  0 <= Py.min 100.0 (Py.max 0.0 q) <= 100
  /\ Py.min 100.0 (Py.max 0.0 q) == Qmax 0 (Qmin q 100).
Proof.
  split.
  - py_minmax; lra.
  - destruct (Q.min_spec q 100) as [[? Emin] | [? Emin]];
      destruct (Q.max_spec 0 (Qmin q 100)) as [[? Emax] | [? Emax]];
      set (m := Qmin q 100) in *; set (M := Qmax 0 m) in *;
      py_minmax; lra.
Qed.

Lemma float_cases (parse : Py.result Q) :
  parse = inl Py.ValueError \/ exists q, parse = inr q.
Proof. destruct parse as [[] | q]; [left | right; exists q]; reflexivity. Qed.

Lemma forallb_filter (A : Type) (keep : A -> bool) (l : list A) :
  forallb keep (List.filter keep l) = true.
Proof.
  induction l as [| a l IH]; simpl; [reflexivity |].
  destruct (keep a) eqn:E; simpl; [rewrite E |]; exact IH.
Qed.

(** C8. Whatever the characters of the reply and whatever [isdigit],
    [strip] and [float] do on them, the confidence parser of either script
    returns and does not raise: the reply is scrubbed to the characters
    that are digits or points; when [float] raises on the scrubbed text the
    result is [None], and when not the result is the parsed number clamped
    to [0,100]. *)
Theorem C8_accuracy_parser
  (char : Type) (isdigit is_point : char -> bool)
  (strip : list char -> list char) (float : list char -> Py.result Q)
  (reply : list char) :
  let keep := fun ch => isdigit ch || is_point ch in
  forallb keep (List.filter keep (strip reply)) = true
  /\ forallb keep (List.filter keep reply) = true
  /\ parsed (float (List.filter keep (strip reply)))
            (Parser.get_accuracy_from_gemini char isdigit is_point strip float reply)
  /\ parsed (float (List.filter keep reply))
            (Parser.get_accuracy_from_llm char isdigit is_point float reply).
Proof.
  intros keep. split; [apply forallb_filter |]. split; [apply forallb_filter |].
  unfold parsed, Parser.get_accuracy_from_gemini, Parser.get_accuracy_from_llm.
  fold keep. split.
  - destruct (float_cases (float (List.filter keep (strip reply)))) as [E | [q E]];
      rewrite E; simpl; [left; split; reflexivity | right].
    exists q, (Py.max 0 (Py.min q 100)).
    destruct (clamp_gemine q) as [? ?]. repeat split; tauto.
  - destruct (float_cases (float (List.filter keep reply))) as [E | [q E]];
      rewrite E; simpl; [left; split; reflexivity | right].
    exists q, (Py.min 100.0 (Py.max 0.0 q)).
    destruct (clamp_llava q) as [? ?]. repeat split; tauto.
Qed.

Lemma join_if_filter (keep : ascii -> bool) (s : string) :
  Py.join_if keep s
  = string_of_list_ascii (List.filter keep (list_ascii_of_string s)).
Proof.
  induction s as [| c s IH]; simpl; [reflexivity |].
  destruct (keep c); simpl; now rewrite IH.
Qed.

(** The parsers of [Gemine] and [Llava] are those of [Parser] on 8-bit
    characters, with the ASCII builtins of [Py]. *)
Lemma byte_parsers_are_instances (reply : string) :
  Gemine.get_accuracy_from_gemini reply
  = Parser.get_accuracy_from_gemini ascii Py.isdigit (fun ch => Ascii.eqb ch ".")
      (fun l => list_ascii_of_string (Py.strip (string_of_list_ascii l)))
      (fun l => Py.float (string_of_list_ascii l))
      (list_ascii_of_string reply)
  /\ Llava.get_accuracy_from_llm reply
     = Parser.get_accuracy_from_llm ascii Py.isdigit (fun ch => Ascii.eqb ch ".")
         (fun l => Py.float (string_of_list_ascii l))
         (list_ascii_of_string reply).
Proof.
  unfold Gemine.get_accuracy_from_gemini, Llava.get_accuracy_from_llm,
    Parser.get_accuracy_from_gemini, Parser.get_accuracy_from_llm.
  rewrite !join_if_filter, string_of_list_ascii_of_string. split; reflexivity.
Qed.

Example accuracy_replies :
  Gemine.get_accuracy_from_gemini " 85 " = inr (Some 85)
  /\ Llava.get_accuracy_from_llm "I would say 90.5%" = inr (Some (90 + 5 / 10))
  /\ Llava.get_accuracy_from_llm "Between 80 and 90" = inr (Some 100.0)
  /\ Gemine.get_accuracy_from_gemini "High" = inr None
  /\ Gemine.get_accuracy_from_gemini "About 85.5. Good." = inr None
  /\ Llava.get_accuracy_from_llm "Error: LLM failed" = inr None.
Proof. vm_compute. repeat split. Qed.

(** ** The two scripts side by side *)

(** The image functions on a two-pixel image, one green and one red pixel:
    the index of each pixel is clipped to [-1,1] and the two average to 0. *)
Example rgvi_two_pixels :
  exists q, Gemine.compute_rgvi [[Np.Pixel 0 200 0; Np.Pixel 200 0 0]] = Some q
            /\ q == 0.
Proof. eexists. split; [reflexivity | vm_compute; reflexivity]. Qed.

Example rgvi_no_pixel : Llava.compute_rgvi [] = None.
Proof. reflexivity. Qed.

(** C9. The numeric core of gemine.py and that of llava.py compute the same
    function: [compute_rgvi], [compute_weather_stress], [soil_modifier],
    [irrigation_recommendation], [confidence_from_rgvi] and
    [water_deficit_index] return the same result on every input. *)
Theorem C9_scripts_agree :
  (forall img, Gemine.compute_rgvi img = Llava.compute_rgvi img)
  /\ (forall temp_c humidity,
        Gemine.compute_weather_stress temp_c humidity
        = Llava.compute_weather_stress temp_c humidity)
  /\ (forall soil_type, Gemine.soil_modifier soil_type = Llava.soil_modifier soil_type)
  /\ (forall stress_score plant_size,
        Gemine.irrigation_recommendation stress_score plant_size
        = Llava.irrigation_recommendation stress_score plant_size)
  /\ (forall sqrt img,
        Gemine.confidence_from_rgvi sqrt img = Llava.confidence_from_rgvi sqrt img)
  /\ (forall stress_score,
        Gemine.water_deficit_index stress_score
        = Llava.water_deficit_index stress_score).
Proof. repeat split. Qed.

(** * Further properties of the scripts *)

(** ** Means and clipping *)

Lemma clip_bounds (x lo hi : Q) : lo <= hi -> lo <= Np.clip x lo hi <= hi.
Proof.
  intros H. unfold Np.clip.
  destruct (Q.max_spec x lo) as [[? Emax] | [? Emax]];
    destruct (Q.min_spec (Qmax x lo) hi) as [[? Emin] | [? Emin]];
    set (M := Qmax x lo) in *; set (m := Qmin M hi) in *; lra.
Qed.

Lemma clip_inside (x lo hi : Q) : lo <= x <= hi -> Np.clip x lo hi == x.
Proof.
  intros H. unfold Np.clip.
  destruct (Q.max_spec x lo) as [[? Emax] | [? Emax]];
    destruct (Q.min_spec (Qmax x lo) hi) as [[? Emin] | [? Emin]];
    set (M := Qmax x lo) in *; set (m := Qmin M hi) in *; lra.
Qed.

Lemma clip_above (x lo hi : Q) : lo <= hi -> hi <= x -> Np.clip x lo hi == hi.
Proof.
  intros H1 H2. unfold Np.clip.
  destruct (Q.max_spec x lo) as [[? Emax] | [? Emax]];
    destruct (Q.min_spec (Qmax x lo) hi) as [[? Emin] | [? Emin]];
    set (M := Qmax x lo) in *; set (m := Qmin M hi) in *; lra.
Qed.

Lemma sum_bounds (lo hi : Q) (xs : list Q) :
  Forall (fun x => lo <= x <= hi) xs ->
  lo * inject_Z (Z.of_nat (length xs)) <= Np.sum xs
  /\ Np.sum xs <= hi * inject_Z (Z.of_nat (length xs)).
Proof.
  induction 1 as [| x xs Hx _ IH].
  - change (inject_Z (Z.of_nat (length (@nil Q)))) with 0.
    change (Np.sum []) with 0. lra.
  - change (length (x :: xs)) with (S (length xs)).
    rewrite Nat2Z.inj_succ. unfold Z.succ. rewrite inject_Z_plus.
    change (inject_Z 1) with 1. change (Np.sum (x :: xs)) with (x + Np.sum xs).
    set (n := inject_Z (Z.of_nat (length xs))) in *. set (t := Np.sum xs) in *.
    lra.
Qed.

Lemma length_pos (A : Type) (xs : list A) :
  xs <> [] -> 0 < inject_Z (Z.of_nat (length xs)).
Proof.
  intros H. destruct xs as [| x xs]; [contradiction |].
  change 0 with (inject_Z 0). rewrite <- Zlt_Qlt. simpl length. lia.
Qed.

(** The mean of a list that is not empty lies between any two bounds of its
    elements. *)
Lemma mean_bounds (lo hi : Q) (xs : list Q) :
  xs <> [] -> Forall (fun x => lo <= x <= hi) xs ->
  exists m, Np.mean xs = Some m /\ lo <= m <= hi.
Proof.
  intros Hne Hall. pose proof (length_pos Q xs Hne) as Hlen.
  destruct (sum_bounds lo hi xs Hall) as [Hlo Hhi].
  destruct xs as [| x xs]; [contradiction |].
  eexists. split; [reflexivity |].
  split.
  - apply Qle_shift_div_l; assumption.
  - apply Qle_shift_div_r; assumption.
Qed.

Lemma mean_none (xs : list Q) : Np.mean xs = None <-> xs = [].
Proof. destruct xs; simpl; split; congruence. Qed.

(** ** Vegetation index *)

Lemma combine_map (A B C : Type) (f : A -> B) (g : A -> C) (l : list A) :
  combine (map f l) (map g l) = map (fun x => (f x, g x)) l.
Proof. induction l as [| a l IH]; simpl; [| rewrite IH]; reflexivity. Qed.

Lemma compute_rgvi_per_pixel (img : Np.image) :
  Gemine.compute_rgvi img = Np.mean (map pixel_index (concat img)).
Proof.
  unfold Gemine.compute_rgvi, Np.channel.
  rewrite combine_map, !map_map. reflexivity.
Qed.

Lemma map_nil_iff (A B : Type) (f : A -> B) (l : list A) : map f l = [] <-> l = [].
Proof. destruct l; simpl; split; congruence. Qed.

(** X1. [compute_rgvi] has no value ([nan]) exactly on an image without
    pixels; on every other image its value lies in [-1,1], whatever the
    channel values; in both scripts. *)
Theorem X1_rgvi_range (img : Np.image) :
  match Gemine.compute_rgvi img with
  | Some q => concat img <> [] /\ -1 <= q <= 1
  | None => concat img = []
  end
  /\ Llava.compute_rgvi img = Gemine.compute_rgvi img.
Proof.
  split; [| reflexivity].
  rewrite compute_rgvi_per_pixel.
  destruct (concat img) as [| p ps] eqn:E; [reflexivity |].
  destruct (mean_bounds (-1) 1 (map pixel_index (p :: ps))) as (m & Hm & Hb).
  - discriminate.
  - apply Forall_map, Forall_forall. intros x _. apply clip_bounds. lra.
  - rewrite Hm. split; [discriminate | exact Hb].
Qed.

Lemma clip_nonneg (x : Q) : 0 <= x -> 0 <= Np.clip x (-1) 1.
Proof.
  intros H. unfold Np.clip.
  destruct (Q.max_spec x (-1)) as [[? Emax] | [? Emax]];
    destruct (Q.min_spec (Qmax x (-1)) 1) as [[? Emin] | [? Emin]];
    set (M := Qmax x (-1)) in *; set (m := Qmin M 1) in *; lra.
Qed.

Lemma clip_nonpos (x : Q) : x <= 0 -> Np.clip x (-1) 1 <= 0.
Proof.
  intros H. unfold Np.clip.
  destruct (Q.max_spec x (-1)) as [[? Emax] | [? Emax]];
    destruct (Q.min_spec (Qmax x (-1)) 1) as [[? Emin] | [? Emin]];
    set (M := Qmax x (-1)) in *; set (m := Qmin M 1) in *; lra.
Qed.

Lemma eps_pos : 0 < 1e-5.
Proof. reflexivity. Qed.

Lemma pixel_index_nonneg (p : Np.pixel) :
  (0 <= Np.red p <= Np.green p)%Z -> 0 <= pixel_index p.
Proof.
  intros [H0 H1]. rewrite Zle_Qle in H0, H1. change (inject_Z 0) with 0 in H0.
  pose proof eps_pos as He. unfold pixel_index.
  set (r := inject_Z (Np.red p)) in *. set (g := inject_Z (Np.green p)) in *.
  set (eps := 1e-5) in *.
  apply clip_nonneg, Qle_shift_div_l; lra.
Qed.

Lemma pixel_index_nonpos (p : Np.pixel) :
  (0 <= Np.green p <= Np.red p)%Z -> pixel_index p <= 0.
Proof.
  intros [H0 H1]. rewrite Zle_Qle in H0, H1. change (inject_Z 0) with 0 in H0.
  pose proof eps_pos as He. unfold pixel_index.
  set (r := inject_Z (Np.red p)) in *. set (g := inject_Z (Np.green p)) in *.
  set (eps := 1e-5) in *.
  apply clip_nonpos, Qle_shift_div_r; lra.
Qed.

Lemma all_pixels_concat (P : Np.pixel -> Prop) (img : Np.image) :
  all_pixels P img -> Forall P (concat img).
Proof.
  unfold all_pixels. induction 1 as [| row img Hrow _ IH]; simpl.
  - constructor.
  - apply Forall_app. split; assumption.
Qed.

Lemma rgvi_between (lo hi : Q) (img : Np.image) :
  concat img <> [] ->
  Forall (fun p => lo <= pixel_index p <= hi) (concat img) ->
  exists q, Gemine.compute_rgvi img = Some q /\ lo <= q <= hi.
Proof.
  intros Hne Hall. rewrite compute_rgvi_per_pixel.
  apply mean_bounds.
  - now rewrite map_nil_iff.
  - apply Forall_map. exact Hall.
Qed.

(** X2. On an image with a pixel at least, whose pixels all have a green
    value at least as large as the red one (both non-negative), the
    vegetation index is in [0,1]; when the red value is at least as large as
    the green one in every pixel, the index is in [-1,0]. *)
Theorem X2_rgvi_sign (img : Np.image) :
  concat img <> [] ->
  (all_pixels (fun p => (0 <= Np.red p <= Np.green p)%Z) img ->
   exists q, Gemine.compute_rgvi img = Some q /\ 0 <= q <= 1)
  /\ (all_pixels (fun p => (0 <= Np.green p <= Np.red p)%Z) img ->
      exists q, Gemine.compute_rgvi img = Some q /\ -1 <= q <= 0).
Proof.
  intros Hne. split; intros Hall; apply rgvi_between; try assumption;
    apply all_pixels_concat in Hall; rewrite Forall_forall in Hall;
    apply Forall_forall; intros p Hp; specialize (Hall p Hp).
  - split; [now apply pixel_index_nonneg |].
    apply (clip_bounds _ (-1) 1). lra.
  - split; [| now apply pixel_index_nonpos].
    apply (clip_bounds _ (-1) 1). lra.
Qed.

Lemma X2_rgvi_sign_witness :
  exists q, Gemine.compute_rgvi [[Np.Pixel 10 200 30]; [Np.Pixel 90 90 0]] = Some q
            /\ 0 <= q <= 1.
Proof.
  refine (proj1 (X2_rgvi_sign [[Np.Pixel 10 200 30]; [Np.Pixel 90 90 0]] _) _).
  - discriminate.
  - repeat constructor; simpl; lia.
Defined.

(** ** Green enhancement *)

Lemma floor_byte (x : Q) : 0 <= x <= 255 -> (0 <= Np.astype_uint8 x <= 255)%Z.
Proof.
  intros [H0 H1]. unfold Np.astype_uint8. split.
  - apply (Qfloor_resp_le 0 x H0).
  - apply (Qfloor_resp_le x 255 H1).
Qed.

Lemma enhance_row_lengths (img : Np.image) :
  map (@length Np.pixel) (Gemine.enhance_vegetation img) = map (@length Np.pixel) img.
Proof.
  unfold Gemine.enhance_vegetation. rewrite map_map.
  apply map_ext. intros row. apply length_map.
Qed.

(** X3. [enhance_vegetation] keeps the shape of the image (the number of
    rows and the length of each row), and every channel of every pixel it
    returns is a byte, whatever the channel values it is given; in both
    scripts. *)
Theorem X3_enhance_shape_and_bytes (img : Np.image) :
  map (@length Np.pixel) (Gemine.enhance_vegetation img) = map (@length Np.pixel) img
  /\ all_pixels byte_pixel (Gemine.enhance_vegetation img)
  /\ Llava.enhance_vegetation img = Gemine.enhance_vegetation img.
Proof.
  split; [apply enhance_row_lengths |]. split; [| reflexivity].
  unfold all_pixels, Gemine.enhance_vegetation.
  apply Forall_map, Forall_forall. intros row _.
  apply Forall_map, Forall_forall. intros p _.
  unfold byte_pixel; simpl.
  repeat split; apply floor_byte, clip_bounds; lra.
Qed.

Lemma inject_byte (z : Z) : (0 <= z <= 255)%Z -> 0 <= inject_Z z <= 255.
Proof.
  intros [H0 H1]. rewrite Zle_Qle in H0, H1. split; assumption.
Qed.

Lemma half_floor (z : Z) :
  (0 <= z <= 255)%Z ->
  Np.astype_uint8 (Np.clip (inject_Z z * 0.5) 0 255) = (z / 2)%Z.
Proof.
  intros H. pose proof (inject_byte z H) as Hq. unfold Np.astype_uint8.
  rewrite (Qfloor_comp _ (inject_Z z * 0.5)) by (apply clip_inside; lra).
  cbn. Z.div_mod_to_equations. lia.
Qed.

Lemma green_floor (z : Z) :
  (0 <= z <= 255)%Z ->
  Np.astype_uint8 (Np.clip (inject_Z z * 1.5) 0 255) = Z.min 255 (3 * z / 2).
Proof.
  intros H. pose proof (inject_byte z H) as Hq. unfold Np.astype_uint8.
  destruct (Qlt_le_dec (inject_Z z * 1.5) 255) as [Hlt | Hge].
  - rewrite (Qfloor_comp _ (inject_Z z * 1.5)) by (apply clip_inside; lra).
    assert (Hz : (z * 15 < 2550)%Z).
    { rewrite Zlt_Qlt, inject_Z_mult. change (inject_Z 15) with 15.
      change (inject_Z 2550) with 2550. lra. }
    cbn. Z.div_mod_to_equations. lia.
  - rewrite (Qfloor_comp _ 255) by (apply clip_above; lra).
    assert (Hz : (2550 <= z * 15)%Z).
    { rewrite Zle_Qle, inject_Z_mult. change (inject_Z 15) with 15.
      change (inject_Z 2550) with 2550. lra. }
    change (Qfloor 255) with 255%Z. Z.div_mod_to_equations. lia.
Qed.

(** X4. On pixels made of bytes, [enhance_vegetation] halves the red and
    the blue value, rounding down, and multiplies the green value by one
    and a half, rounding down and stopping at 255. *)
Theorem X4_enhance_closed_form (img : Np.image) :
  all_pixels byte_pixel img ->
  Gemine.enhance_vegetation img
  = map (map (fun p => Np.Pixel (Np.red p / 2)
                                (Z.min 255 (3 * Np.green p / 2))
                                (Np.blue p / 2))) img.
Proof.
  unfold all_pixels, Gemine.enhance_vegetation. intros Hall.
  rewrite List.Forall_forall in Hall.
  apply map_ext_in. intros row Hrow. specialize (Hall row Hrow).
  rewrite List.Forall_forall in Hall.
  apply map_ext_in. intros p Hp. destruct (Hall p Hp) as (Hr & Hg & Hb).
  now rewrite (half_floor _ Hr), (green_floor _ Hg), (half_floor _ Hb).
Qed.

Lemma X4_enhance_closed_form_witness :
  Gemine.enhance_vegetation [[Np.Pixel 201 201 7; Np.Pixel 0 33 255]]
  = [[Np.Pixel 100 255 3; Np.Pixel 0 49 127]].
Proof.
  apply (X4_enhance_closed_form [[Np.Pixel 201 201 7; Np.Pixel 0 33 255]]).
  repeat constructor; simpl; lia.
Defined.

Lemma concat_map_map (A B : Type) (f : A -> B) (l : list (list A)) :
  concat (map (map f) l) = map f (concat l).
Proof.
  induction l as [| x l IH]; simpl; [reflexivity |].
  now rewrite IH, map_app.
Qed.

Lemma ndvi_stress_healthy (q : Q) : 0 <= q -> Gemine.ndvi_stress q <= 0.5.
Proof. intros H. unfold Gemine.ndvi_stress. qconst. py_minmax; lra. Qed.

(** X5. When every pixel of the loaded image is made of bytes and has a red
    value of at most three times its green value, the vegetation index the
    main script computes on the enhanced image is in [0,1], so that the
    vegetation stress is at most 0.5: the enhancement makes such an image
    count as vegetation, a grey one included. *)
Theorem X5_enhanced_index_nonneg (image : Np.image) :
  concat image <> [] ->
  all_pixels (fun p => byte_pixel p /\ (Np.red p <= 3 * Np.green p)%Z) image ->
  exists q, Gemine.rgvi_score image = Some q /\ 0 <= q <= 1
            /\ Gemine.ndvi_stress q <= 0.5
            /\ Llava.rgvi_score image = Some q.
Proof.
  intros Hne Hall. unfold Gemine.rgvi_score.
  destruct (rgvi_between 0 1 (Gemine.enhance_vegetation image)) as (q & Hq & Hb).
  - unfold Gemine.enhance_vegetation. rewrite concat_map_map, map_nil_iff. exact Hne.
  - unfold Gemine.enhance_vegetation. rewrite concat_map_map.
    apply all_pixels_concat in Hall. rewrite Forall_forall in Hall.
    apply Forall_map, Forall_forall. intros p Hp.
    destruct (Hall p Hp) as [(Hr & Hg & _) Hrg]. simpl. split.
    + apply pixel_index_nonneg. simpl.
      rewrite (half_floor _ Hr), (green_floor _ Hg).
      Z.div_mod_to_equations. lia.
    + apply (clip_bounds _ (-1) 1). lra.
  - exists q. split; [exact Hq |]. split; [exact Hb |].
    split; [apply ndvi_stress_healthy; lra | exact Hq].
Qed.

Lemma X5_enhanced_index_nonneg_witness :
  exists q, Gemine.rgvi_score [[Np.Pixel 128 128 128; Np.Pixel 90 30 0]] = Some q
            /\ 0 <= q <= 1 /\ Gemine.ndvi_stress q <= 0.5
            /\ Llava.rgvi_score [[Np.Pixel 128 128 128; Np.Pixel 90 30 0]] = Some q.
Proof.
  apply (X5_enhanced_index_nonneg [[Np.Pixel 128 128 128; Np.Pixel 90 30 0]]).
  - discriminate.
  - repeat constructor; simpl; lia.
Defined.

(** ** Blank images and confidence *)

Lemma square_zero (a : Q) : a == 0 -> a * a == 0.
Proof. intros H. rewrite H. reflexivity. Qed.

(** The standard deviation of equal values is the root of zero. *)
Lemma std_constant (sqrt : Q -> Q) (c : Q) (xs : list Q) :
  xs <> [] -> Forall (fun x => x == c) xs ->
  exists w, Np.std sqrt xs = Some (sqrt w) /\ w == 0.
Proof.
  intros Hne Hall. rewrite List.Forall_forall in Hall.
  destruct (mean_bounds c c xs Hne) as (m & Hm & Hb).
  { apply List.Forall_forall. intros x Hx. specialize (Hall x Hx). lra. }
  destruct (mean_bounds 0 0 (map (fun x => Qabs (x - m) * Qabs (x - m)) xs))
    as (w & Hw & Hwb).
  { now rewrite map_nil_iff. }
  { apply Forall_map, List.Forall_forall. intros x Hx. specialize (Hall x Hx).
    simpl. pose proof (Qabs_nonneg (x - m)) as H0.
    assert (H1 : Qabs (x - m) <= 0) by (apply Qabs_Qle_condition; lra).
    rewrite (square_zero (Qabs (x - m))) by lra. lra. }
  exists w. unfold Np.std. rewrite Hm, Hw. split; [reflexivity | lra].
Qed.

Lemma std_none (sqrt : Q -> Q) : Np.std sqrt [] = None.
Proof. reflexivity. Qed.

Lemma values_nil (img : Np.image) : concat img = [] -> Np.values img = [].
Proof. unfold Np.values. now intros ->. Qed.

Lemma values_uniform (v : Z) (img : Np.image) :
  concat img <> [] ->
  all_pixels (fun p => Np.red p = v /\ Np.green p = v /\ Np.blue p = v) img ->
  Np.values img <> [] /\ Forall (fun x => x == inject_Z v) (Np.values img).
Proof.
  intros Hne Hall. apply all_pixels_concat in Hall. unfold Np.values.
  split.
  - destruct (concat img) as [| p ps]; [contradiction | discriminate].
  - clear Hne. induction Hall as [| q qs Hq _ IH]; simpl; [constructor |].
    destruct Hq as (Hr & Hg & Hb). rewrite Hr, Hg, Hb.
    repeat (constructor; [reflexivity |]). exact IH.
Qed.

Lemma floor_sqrt_zero (x : Q) : x == 0 -> floor_sqrt x == 0.
Proof. intros H. unfold floor_sqrt. now rewrite (Qfloor_comp x 0 H). Qed.

Lemma floor_sqrt_nonneg (x : Q) : 0 <= floor_sqrt x.
Proof.
  unfold floor_sqrt. change 0 with (inject_Z 0). rewrite <- Zle_Qle.
  apply Z.sqrt_nonneg.
Qed.

(** X6. When the square root of zero is zero, an image with a pixel at
    least whose channel values are all the same is blank for
    [is_blank_image]; an image without pixels is not (its deviation is
    [nan]); in both scripts. *)
Theorem X6_uniform_image_is_blank (sqrt : Q -> Q) (v : Z) (img : Np.image) :
  (forall x, x == 0 -> sqrt x == 0) ->
  (concat img <> [] ->
   all_pixels (fun p => Np.red p = v /\ Np.green p = v /\ Np.blue p = v) img ->
   Gemine.is_blank_image sqrt img = true /\ Llava.is_blank_image sqrt img = true)
  /\ (concat img = [] ->
      Gemine.is_blank_image sqrt img = false
      /\ Llava.is_blank_image sqrt img = false).
Proof.
  intros Hsqrt. split.
  - intros Hne Hall. destruct (values_uniform v img Hne Hall) as [Hv Hu].
    destruct (std_constant sqrt (inject_Z v) (Np.values img) Hv Hu) as (w & Hw & H0).
    assert (E : Gemine.is_blank_image sqrt img = true).
    { unfold Gemine.is_blank_image. rewrite Hw.
      destruct (ltb_spec (sqrt w) 5) as [_ | Hn]; [reflexivity |].
      exfalso. apply Hn. rewrite (Hsqrt w H0). reflexivity. }
    split; exact E.
  - intros Hnil. unfold Llava.is_blank_image, Gemine.is_blank_image.
    rewrite (values_nil img Hnil). split; reflexivity.
Qed.

Lemma X6_uniform_image_is_blank_witness :
  Gemine.is_blank_image floor_sqrt [[Np.Pixel 7 7 7; Np.Pixel 7 7 7]] = true
  /\ Llava.is_blank_image floor_sqrt [[Np.Pixel 7 7 7; Np.Pixel 7 7 7]] = true.
Proof.
  apply (proj1 (X6_uniform_image_is_blank floor_sqrt 7
                  [[Np.Pixel 7 7 7; Np.Pixel 7 7 7]] floor_sqrt_zero)).
  - discriminate.
  - repeat constructor.
Defined.

Lemma channel_uniform (v : Z) (img : Np.image) :
  concat img <> [] -> all_pixels (fun p => Np.green p = v) img ->
  Np.channel Np.green img <> []
  /\ Forall (fun x => x == inject_Z v) (Np.channel Np.green img).
Proof.
  intros Hne Hall. apply all_pixels_concat in Hall. unfold Np.channel.
  split; [now rewrite map_nil_iff |].
  apply Forall_map. eapply Forall_impl; [exact Hall |].
  intros p ->. reflexivity.
Qed.

(** X7. The confidence of the vegetation reading never exceeds 1; it is 1
    on an image without pixels; it is at least 0 when the square root is
    never negative; and it is 0 on an image whose green values are all the
    same, when the square root of zero is zero; in both scripts. *)
Theorem X7_confidence_range (sqrt : Q -> Q) (img : Np.image) :
  Gemine.confidence_from_rgvi sqrt img <= 1
  /\ (concat img = [] -> Gemine.confidence_from_rgvi sqrt img == 1)
  /\ ((forall x, 0 <= sqrt x) -> 0 <= Gemine.confidence_from_rgvi sqrt img)
  /\ ((forall x, x == 0 -> sqrt x == 0) -> concat img <> [] ->
      forall v, all_pixels (fun p => Np.green p = v) img ->
      Gemine.confidence_from_rgvi sqrt img == 0)
  /\ Llava.confidence_from_rgvi sqrt img = Gemine.confidence_from_rgvi sqrt img.
Proof.
  unfold Gemine.confidence_from_rgvi.
  split; [| split; [| split; [| split; [| reflexivity]]]].
  - destruct (Np.std sqrt _); [qconst; py_minmax |]; lra.
  - intros Hnil. unfold Np.channel. rewrite Hnil. reflexivity.
  - intros Hpos. destruct (Np.std sqrt (Np.channel Np.green img)) as [s |] eqn:E; [| lra].
    assert (0 <= s).
    { unfold Np.std in E. destruct (Np.mean (Np.channel Np.green img)); [| discriminate].
      destruct (Np.mean _); [| discriminate]. injection E as <-. apply Hpos. }
    qconst. py_minmax; lra.
  - intros Hsqrt Hne v Hall. destruct (channel_uniform v img Hne Hall) as [Hc Hu].
    destruct (std_constant sqrt _ _ Hc Hu) as (w & Hw & H0).
    rewrite Hw. pose proof (Hsqrt w H0) as Hs.
    qconst. py_minmax; lra.
Qed.

Lemma X7_confidence_range_witness :
  0 <= Gemine.confidence_from_rgvi floor_sqrt [[Np.Pixel 0 10 0; Np.Pixel 0 250 0]]
  /\ Gemine.confidence_from_rgvi floor_sqrt [[Np.Pixel 3 9 0; Np.Pixel 5 9 1]] == 0.
Proof.
  split.
  - apply (proj1 (proj2 (proj2 (X7_confidence_range floor_sqrt
             [[Np.Pixel 0 10 0; Np.Pixel 0 250 0]])))).
    exact floor_sqrt_nonneg.
  - apply (proj1 (proj2 (proj2 (proj2 (X7_confidence_range floor_sqrt
             [[Np.Pixel 3 9 0; Np.Pixel 5 9 1]])))) floor_sqrt_zero) with (v := 9%Z).
    + discriminate.
    + repeat constructor.
Defined.

(** ** Monotonicity of rounding and of the derived metrics *)

Lemma round_half_even_mono (x y : Q) :
  x <= y -> (Py.round_half_even x <= Py.round_half_even y)%Z.
Proof.
  intros Hxy. pose proof (Qfloor_resp_le x y Hxy) as Hf.
  pose proof (Qfloor_le x) as Hx0. pose proof (Qlt_floor x) as Hx1.
  pose proof (Qfloor_le y) as Hy0. pose proof (Qlt_floor y) as Hy1.
  rewrite inject_Z_plus in Hx1, Hy1. change (inject_Z 1) with 1 in Hx1, Hy1.
  unfold Py.round_half_even.
  destruct (Z_lt_le_dec (Qfloor x) (Qfloor y)) as [Hlt | Hge].
  - destruct (Py.ltb (x - inject_Z (Qfloor x)) (1 # 2)),
      (Py.ltb (1 # 2) (x - inject_Z (Qfloor x))), (Z.even (Qfloor x)),
      (Py.ltb (y - inject_Z (Qfloor y)) (1 # 2)),
      (Py.ltb (1 # 2) (y - inject_Z (Qfloor y))), (Z.even (Qfloor y)); lia.
  - assert (E : Qfloor x = Qfloor y) by lia. rewrite E in *.
    destruct (ltb_spec (x - inject_Z (Qfloor y)) (1 # 2)),
      (ltb_spec (1 # 2) (x - inject_Z (Qfloor y))),
      (ltb_spec (y - inject_Z (Qfloor y)) (1 # 2)),
      (ltb_spec (1 # 2) (y - inject_Z (Qfloor y))),
      (Z.even (Qfloor y)); first [lia | exfalso; lra].
Qed.

Lemma round2_mono (x y : Q) : x <= y -> Py.round x 2 <= Py.round y 2.
Proof.
  intros H. unfold Py.round. change (inject_Z (10 ^ Z.of_nat 2)) with 100.
  assert (Hm : (Py.round_half_even (x * 100) <= Py.round_half_even (y * 100))%Z)
    by (apply round_half_even_mono; lra).
  rewrite Zle_Qle in Hm. qconst. lra.
Qed.

Lemma round2_whole (k : Z) : Py.round (inject_Z k) 2 == inject_Z k.
Proof.
  unfold Py.round. change (inject_Z (10 ^ Z.of_nat 2)) with 100.
  rewrite (round_half_even_comp (inject_Z k * 100) (inject_Z (k * 100)))
    by (rewrite inject_Z_mult; reflexivity).
  rewrite round_half_even_Z, inject_Z_mult. change (inject_Z 100) with 100. field.
Qed.

Lemma base_water_values (plant_size : string) :
  default 1.5 (Gemine.base_water !! plant_size) = 0.5
  \/ default 1.5 (Gemine.base_water !! plant_size) = 1.5
  \/ default 1.5 (Gemine.base_water !! plant_size) = 3.0.
Proof.
  rewrite base_water_lookup.
  destruct (String.eqb plant_size "small"); [auto |].
  destruct (String.eqb plant_size "medium"); [auto |].
  destruct (String.eqb plant_size "large"); auto.
Qed.

(** X8. For every plant size, known or not, the irrigation volume does not
    decrease when the stress score grows; and for a stress score that is
    not negative, a small plant gets at most as much as a medium one, and a
    medium one at most as much as a large one; in both scripts. *)
Theorem X8_irrigation_monotone (s1 s2 : Q) (plant_size : string) :
  s1 <= s2 ->
  Gemine.irrigation_recommendation s1 plant_size
  <= Gemine.irrigation_recommendation s2 plant_size
  /\ Llava.irrigation_recommendation s1 plant_size
     <= Llava.irrigation_recommendation s2 plant_size
  /\ (0 <= s1 ->
      Gemine.irrigation_recommendation s1 "small"
      <= Gemine.irrigation_recommendation s1 "medium"
      /\ Gemine.irrigation_recommendation s1 "medium"
         <= Gemine.irrigation_recommendation s1 "large").
Proof.
  intros H.
  assert (M : Gemine.irrigation_recommendation s1 plant_size
              <= Gemine.irrigation_recommendation s2 plant_size).
  { unfold Gemine.irrigation_recommendation. apply round2_mono.
    destruct (base_water_values plant_size) as [E | [E | E]]; rewrite E; lra. }
  split; [exact M |]. split; [exact M |].
  intros H0. split; apply round2_mono;
    change (default 1.5 (Gemine.base_water !! "small"%string)) with 0.5;
    change (default 1.5 (Gemine.base_water !! "medium"%string)) with 1.5;
    change (default 1.5 (Gemine.base_water !! "large"%string)) with 3.0; lra.
Qed.

Lemma X8_irrigation_monotone_witness :
  Gemine.irrigation_recommendation 0.2 "bonsai"
  <= Gemine.irrigation_recommendation 0.7 "bonsai".
Proof.
  assert (H : 0.2 <= 0.7) by (vm_compute; discriminate).
  exact (proj1 (X8_irrigation_monotone 0.2 0.7 "bonsai" H)).
Defined.

(** X9. Whatever the vegetation index, the weather and the soil, the
    metrics the main script derives from the combined stress stay in range:
    the water deficit index is in [0,1] and the irrigation need, computed
    for a medium plant, is between 0 and 3 litres; in both scripts. *)
Theorem X9_derived_metrics_in_range
  (rgvi_score temp_c humidity : Q) (soil_type : string) :
  let c := Gemine.combined_stress rgvi_score temp_c humidity soil_type in
  0 <= Gemine.wdi c <= 1
  /\ 0 <= Gemine.irrigation_need c <= 3
  /\ Llava.wdi (Llava.combined_stress rgvi_score temp_c humidity soil_type)
     = Gemine.wdi c
  /\ Llava.irrigation_need (Llava.combined_stress rgvi_score temp_c humidity soil_type)
     = Gemine.irrigation_need c.
Proof.
  intros c.
  pose proof (combined_stress_bounds rgvi_score temp_c humidity soil_type) as [H0 H1].
  fold c in H0, H1.
  split; [| split; [| split; reflexivity]].
  - unfold Gemine.wdi, Gemine.water_deficit_index.
    pose proof (round2_mono 0 c H0) as L. pose proof (round2_mono c 1 H1) as U.
    rewrite (round2_whole 0) in L. rewrite (round2_whole 1) in U.
    change (inject_Z 0) with 0 in L. change (inject_Z 1) with 1 in U. split; assumption.
  - unfold Gemine.irrigation_need, Gemine.irrigation_recommendation.
    change (default 1.5 (Gemine.base_water !! Gemine.plant_size_default)) with 1.5.
    assert (L : Py.round (inject_Z 0) 2 <= Py.round (1.5 * c * 2) 2)
      by (apply round2_mono; change (inject_Z 0) with 0; lra).
    assert (U : Py.round (1.5 * c * 2) 2 <= Py.round (inject_Z 3) 2)
      by (apply round2_mono; change (inject_Z 3) with 3; lra).
    rewrite round2_whole in L, U.
    change (inject_Z 0) with 0 in L. change (inject_Z 3) with 3 in U. split; assumption.
Qed.

(** ** How the inputs move the combined stress *)

Lemma ndvi_stress_antitone (r1 r2 : Q) :
  r2 <= r1 -> Gemine.ndvi_stress r1 <= Gemine.ndvi_stress r2.
Proof. intros H. unfold Gemine.ndvi_stress. qconst. py_minmax; lra. Qed.

Lemma ndvi_stress_worst (r : Q) : r <= -1 -> Gemine.ndvi_stress r == 1.
Proof. intros H. unfold Gemine.ndvi_stress. qconst. py_minmax; lra. Qed.

Lemma ndvi_stress_best (r : Q) : 1 <= r -> Gemine.ndvi_stress r == 0.
Proof. intros H. unfold Gemine.ndvi_stress. qconst. py_minmax; lra. Qed.

(** X10. The combined stress never goes down when the vegetation index
    goes down, the temperature moves away from 25, the humidity moves away
    from 65 and the soil multiplier goes up, all at once or one at a time;
    in both scripts. *)
Theorem X10_combined_stress_monotone
  (r1 r2 t1 t2 h1 h2 : Q) (soil1 soil2 : string) :
  r2 <= r1 ->
  Qabs (t1 - 25) <= Qabs (t2 - 25) ->
  Qabs (h1 - 65) <= Qabs (h2 - 65) ->
  Gemine.soil_modifier soil1 <= Gemine.soil_modifier soil2 ->
  Gemine.combined_stress r1 t1 h1 soil1 <= Gemine.combined_stress r2 t2 h2 soil2
  /\ Llava.combined_stress r1 t1 h1 soil1 <= Llava.combined_stress r2 t2 h2 soil2.
Proof.
  intros Hr Ht Hh Hs.
  assert (M : Gemine.combined_stress r1 t1 h1 soil1
              <= Gemine.combined_stress r2 t2 h2 soil2); [| split; exact M].
  unfold Gemine.combined_stress.
  pose proof (ndvi_stress_antitone r1 r2 Hr) as Hn.
  pose proof (ndvi_stress_bounds r1) as Hn1.
  pose proof (weather_stress_bounds t1 h1) as Hw1.
  assert (Hw : Gemine.compute_weather_stress t1 h1
               <= Gemine.compute_weather_stress t2 h2).
  { apply weather_stress_mono; split; auto using Qabs_nonneg. }
  set (n1 := Gemine.ndvi_stress r1) in *. set (n2 := Gemine.ndvi_stress r2) in *.
  set (w1 := Gemine.compute_weather_stress t1 h1) in *.
  set (w2 := Gemine.compute_weather_stress t2 h2) in *.
  destruct (soil_modifier_values soil1) as [E1 | [E1 | [E1 | E1]]];
    destruct (soil_modifier_values soil2) as [E2 | [E2 | [E2 | E2]]];
    rewrite E1, E2 in *; py_minmax; lra.
Qed.

Lemma X10_combined_stress_monotone_witness :
  Gemine.combined_stress 0.4 28 60 "loam" <= Gemine.combined_stress 0.1 35 40 "clay".
Proof.
  refine (proj1 (X10_combined_stress_monotone 0.4 0.1 28 35 60 40 "loam" "clay" _ _ _ _));
    vm_compute; discriminate.
Defined.

Lemma status_high (c : Q) :
  0.6 <= c ->
  Gemine.stress_status c = "High water stress – urgent watering required."%string.
Proof.
  intros H. unfold Gemine.stress_status.
  destruct (ltb_spec c 0.3); [lra |]. destruct (ltb_spec c 0.6); [lra | reflexivity].
Qed.

Lemma status_not_high (c : Q) :
  c < 0.6 ->
  Gemine.stress_status c = "Low water stress – plant looks healthy."%string
  \/ Gemine.stress_status c
     = "Moderate water stress – some irrigation may help."%string.
Proof.
  intros H. unfold Gemine.stress_status.
  destruct (ltb_spec c 0.3); [now left |]. destruct (ltb_spec c 0.6); [now right | lra].
Qed.

(** X11. With a vegetation index of -1 or less on a soil whose name
    contains "sandy", the status is the high-stress one whatever the
    weather; with a vegetation index of 1 or more on a soil whose name does
    not contain "sandy", the status is never the high-stress one, whatever
    the weather; in both scripts. *)
Theorem X11_status_extremes (rgvi_score temp_c humidity : Q) (soil_type : string) :
  let c := Gemine.combined_stress rgvi_score temp_c humidity soil_type in
  (rgvi_score <= -1 -> contains "sandy" (Py.lower soil_type) ->
   Gemine.stress_status c = "High water stress – urgent watering required."%string)
  /\ (1 <= rgvi_score -> ~ contains "sandy" (Py.lower soil_type) ->
      Gemine.stress_status c = "Low water stress – plant looks healthy."%string
      \/ Gemine.stress_status c
         = "Moderate water stress – some irrigation may help."%string)
  /\ Llava.stress_status (Llava.combined_stress rgvi_score temp_c humidity soil_type)
     = Gemine.stress_status c.
Proof.
  intros c. subst c. unfold Gemine.combined_stress.
  pose proof (weather_stress_bounds temp_c humidity) as Hw.
  set (w := Gemine.compute_weather_stress temp_c humidity) in *.
  split; [| split; [| reflexivity]].
  - intros Hr Hs. apply status_high.
    rewrite (soil_modifier_sandy soil_type Hs).
    pose proof (ndvi_stress_worst rgvi_score Hr) as Hn.
    set (n := Gemine.ndvi_stress rgvi_score) in *. py_minmax; lra.
  - intros Hr Hs. apply status_not_high.
    pose proof (ndvi_stress_best rgvi_score Hr) as Hn.
    set (n := Gemine.ndvi_stress rgvi_score) in *.
    apply not_contains in Hs.
    unfold Gemine.soil_modifier. rewrite Hs.
    destruct (Py.str_in "clay" _); [| destruct (Py.str_in "loam" _)];
      py_minmax; lra.
Qed.

Lemma X11_status_extremes_witness :
  Gemine.stress_status (Gemine.combined_stress (-1) 25 65 "Sandy loam")
  = "High water stress – urgent watering required."%string.
Proof.
  refine (proj1 (X11_status_extremes (-1) 25 65 "Sandy loam") _ _).
  - vm_compute. discriminate.
  - now exists EmptyString, " loam"%string.
Defined.

(** ** More on the confidence parsers *)

Lemma app_nil_r (s : string) : s +:+ EmptyString = s.
Proof. induction s as [| c s IH]; [reflexivity |]. now rewrite app_cons, IH. Qed.

Lemma join_if_app (keep : ascii -> bool) (a b : string) :
  Py.join_if keep (a +:+ b) = Py.join_if keep a +:+ Py.join_if keep b.
Proof.
  induction a as [| c a IH]; [reflexivity |].
  rewrite app_cons. simpl. destruct (keep c); [rewrite app_cons |]; now rewrite IH.
Qed.

Lemma join_if_none (keep : ascii -> bool) (s : string) :
  all_chars (fun c => negb (keep c)) s = true -> Py.join_if keep s = EmptyString.
Proof.
  induction s as [| c s IH]; simpl; [reflexivity |].
  destruct (keep c); simpl; [discriminate | exact IH].
Qed.

Lemma join_if_kept (keep : ascii -> bool) (s : string) :
  all_chars keep s = true -> Py.join_if keep s = s.
Proof.
  induction s as [| c s IH]; simpl; [reflexivity |].
  destruct (keep c); simpl; [| discriminate]. intros H. now rewrite IH.
Qed.

Lemma all_chars_impl (p q : ascii -> bool) (s : string) :
  (forall c, p c = true -> q c = true) ->
  all_chars p s = true -> all_chars q s = true.
Proof.
  intros Hpq. induction s as [| c s IH]; simpl; [reflexivity |].
  intros H. apply andb_true_iff in H as [H1 H2].
  now rewrite (Hpq c H1), IH.
Qed.

Lemma decimal_digits (d : Decimal.uint) :
  all_chars Py.isdigit (NilEmpty.string_of_uint d) = true.
Proof. induction d; simpl; auto. Qed.

Lemma split_point_digits (s : string) :
  all_chars Py.isdigit s = true -> Py.split_point s = (s, None).
Proof.
  induction s as [| c s IH]; simpl; [reflexivity |].
  intros H. apply andb_true_iff in H as [H1 H2].
  destruct (Ascii.eqb_spec c ".") as [-> | _]; [discriminate |].
  now rewrite (IH H2).
Qed.

Lemma digits_value_decimal (d : Decimal.uint) (a : nat) :
  Py.digits_value (Z.of_nat a) (NilEmpty.string_of_uint d)
  = Some (Z.of_nat (Nat.of_uint_acc d a)).
Proof.
  revert a. induction d; intros a; simpl; [reflexivity | ..];
    rewrite <- IHd; f_equal; rewrite Nat.tail_mul_spec; lia.
Qed.

Lemma succ_not_nil (d : Decimal.uint) : Decimal.Little.succ d <> Decimal.Nil.
Proof. destruct d; discriminate. Qed.

Lemma decimal_not_empty (n : nat) : decimal n <> EmptyString.
Proof.
  unfold decimal. rewrite Unsigned.to_uint_alt.
  destruct (Decimal.rev (Unsigned.to_lu n)) eqn:E; try discriminate.
  apply DecimalFacts.rev_nil_inv in E. destruct n; simpl in E.
  - discriminate.
  - now apply succ_not_nil in E.
Qed.

(** [float(str(n))] is [n]. *)
Lemma float_decimal (n : nat) : Py.float (decimal n) = inr (inject_Z (Z.of_nat n)).
Proof.
  pose proof (decimal_not_empty n) as Hne. unfold Py.float.
  unfold decimal in *. rewrite (split_point_digits _ (decimal_digits _)).
  pose proof (digits_value_decimal (Nat.to_uint n) 0) as H.
  fold (Nat.of_uint (Nat.to_uint n)) in H. rewrite Unsigned.of_to in H.
  change (Z.of_nat 0) with 0%Z in H.
  destruct (NilEmpty.string_of_uint (Nat.to_uint n)); [contradiction |].
  now rewrite H.
Qed.

Lemma scrub_number_in_prose (n : nat) (pre post : string) :
  all_chars (fun c => negb (digit_or_point c)) pre = true ->
  all_chars (fun c => negb (digit_or_point c)) post = true ->
  Py.join_if digit_or_point (pre +:+ decimal n +:+ post) = decimal n.
Proof.
  intros Hpre Hpost.
  rewrite !join_if_app, (join_if_none _ pre Hpre), (join_if_none _ post Hpost).
  rewrite app_nil_l, app_nil_r. apply join_if_kept.
  apply (all_chars_impl Py.isdigit); [| apply decimal_digits].
  intros c H. unfold digit_or_point. now rewrite H.
Qed.

Lemma clamp_nat (n : nat) (c : Q) :
  c == Qmax 0 (Qmin (inject_Z (Z.of_nat n)) 100) ->
  c == inject_Z (Z.of_nat (Nat.min n 100)).
Proof.
  intros ->.
  assert (H0 : 0 <= inject_Z (Z.of_nat n)).
  { change 0 with (inject_Z 0). rewrite <- Zle_Qle. lia. }
  destruct (le_lt_dec n 100) as [Hle | Hgt].
  - rewrite Nat.min_l by exact Hle.
    assert (H1 : inject_Z (Z.of_nat n) <= 100).
    { change 100 with (inject_Z 100). rewrite <- Zle_Qle. lia. }
    rewrite Q.min_l by exact H1. now rewrite Q.max_r.
  - rewrite Nat.min_r by lia.
    assert (H1 : 100 <= inject_Z (Z.of_nat n)).
    { change 100 with (inject_Z 100). rewrite <- Zle_Qle. lia. }
    rewrite Q.min_r by exact H1. reflexivity.
Qed.

Lemma ascii_prose (s : string) :
  all_chars (fun c => Py.isascii c && negb (digit_or_point c)) s = true ->
  all_chars (fun c => negb (digit_or_point c)) s = true.
Proof.
  apply all_chars_impl. intros c H. now apply andb_true_iff in H as [_ H].
Qed.

(** X12. A reply that holds one whole number, written in decimal, among
    ASCII text without any digit or point is read as that number, capped at
    100, by the parser of either script. *)
Theorem X12_number_in_prose (n : nat) (pre post : string) :
  all_chars (fun c => Py.isascii c && negb (digit_or_point c)) pre = true ->
  all_chars (fun c => Py.isascii c && negb (digit_or_point c)) post = true ->
  exists c1 c2,
    Gemine.get_accuracy_from_gemini (pre +:+ decimal n +:+ post) = inr (Some c1)
    /\ Llava.get_accuracy_from_llm (pre +:+ decimal n +:+ post) = inr (Some c2)
    /\ c1 == inject_Z (Z.of_nat (Nat.min n 100))
    /\ c2 == inject_Z (Z.of_nat (Nat.min n 100)).
Proof.
  intros Hpre Hpost. apply ascii_prose in Hpre, Hpost.
  unfold Gemine.get_accuracy_from_gemini, Llava.get_accuracy_from_llm.
  change (fun ch => Py.isdigit ch || Ascii.eqb ch ".") with digit_or_point.
  rewrite join_if_strip, (scrub_number_in_prose n pre post Hpre Hpost), float_decimal.
  simpl. eexists. eexists. split; [reflexivity |]. split; [reflexivity |].
  split; apply clamp_nat; [apply clamp_gemine | apply clamp_llava].
Qed.

Lemma X12_number_in_prose_witness :
  exists c1 c2,
    Gemine.get_accuracy_from_gemini ("I am " +:+ decimal 85 +:+ "% sure") = inr (Some c1)
    /\ Llava.get_accuracy_from_llm ("I am " +:+ decimal 85 +:+ "% sure") = inr (Some c2)
    /\ c1 == inject_Z (Z.of_nat (Nat.min 85 100))
    /\ c2 == inject_Z (Z.of_nat (Nat.min 85 100)).
Proof.
  apply (X12_number_in_prose 85 "I am " "% sure"); reflexivity.
Defined.

Lemma digits_value_point (acc : Z) (x y : string) :
  Py.digits_value acc (x +:+ "." +:+ y) = None.
Proof.
  revert acc. induction x as [| c x IH]; intros acc.
  - reflexivity.
  - rewrite app_cons. simpl. destruct (Py.isdigit c); [apply IH | reflexivity].
Qed.

Lemma split_two_points (x y z : string) :
  exists i f, Py.split_point (x +:+ "." +:+ y +:+ "." +:+ z) = (i, Some f)
              /\ Py.digits_value 0 f = None.
Proof.
  induction x as [| c x (i & f & E & Hf)].
  - exists EmptyString, (y +:+ "." +:+ z). split; [reflexivity |].
    apply digits_value_point.
  - rewrite app_cons. simpl. destruct (Ascii.eqb c ".").
    + exists EmptyString, (x +:+ "." +:+ y +:+ "." +:+ z). split; [reflexivity |].
      apply digits_value_point.
    + rewrite E. exists (String c i), f. split; [reflexivity | exact Hf].
Qed.

Lemma float_two_points (x y z : string) :
  Py.float (x +:+ "." +:+ y +:+ "." +:+ z) = inl Py.ValueError.
Proof.
  destruct (split_two_points x y z) as (i & f & E & Hf).
  unfold Py.float. rewrite E, Hf. now destruct (Py.digits_value 0 i).
Qed.

(** X13. A reply with two points or more, anywhere in it, gives the
    indeterminate result [None] in either script, whatever digits it
    holds. *)
Theorem X13_two_points_indeterminate (x y z : string) :
  Gemine.get_accuracy_from_gemini (x +:+ "." +:+ y +:+ "." +:+ z) = inr None
  /\ Llava.get_accuracy_from_llm (x +:+ "." +:+ y +:+ "." +:+ z) = inr None.
Proof.
  unfold Gemine.get_accuracy_from_gemini, Llava.get_accuracy_from_llm.
  change (fun ch => Py.isdigit ch || Ascii.eqb ch ".") with digit_or_point.
  rewrite join_if_strip, !join_if_app.
  change (Py.join_if digit_or_point ".") with "."%string.
  now rewrite float_two_points.
Qed.

(** ** The HTTP client of llava.py *)

(** X14. [validate_image] and [ask_llm] never raise.  On a reply with
    status 200 whose JSON is an object with a string under "response", or
    without that field, both return one and the same text, which is that
    string stripped when it is ASCII text; on every other outcome (an
    exception of the request, another status, a body that is not JSON, not
    an object, or holds another type under "response") they return a text
    that starts with "Error". *)
Theorem X14_http_failures_become_text (post : Requests.exc Requests.response) :
  match reply_text post with
  | Some t => exists s,
      Llava.validate_image post = inr s /\ Llava.ask_llm post = inr s
      /\ (all_chars Py.isascii t = true -> s = Py.strip t)
  | None => exists s1 s2,
      Llava.validate_image post = inr s1 /\ Llava.ask_llm post = inr s2
      /\ Py.startswith "Error" s1 = true /\ Py.startswith "Error" s2 = true
  end.
Proof.
  unfold reply_text, Llava.validate_image, Llava.ask_llm.
  destruct post as [e | [status body]]; simpl.
  - eexists. eexists. repeat split.
  - destruct (status =? 200)%Z; simpl; [| eexists; eexists; repeat split].
    destruct body as [e | [fields | t]]; simpl;
      [eexists; eexists; repeat split | | eexists; eexists; repeat split].
    destruct (fields !! "response"%string) as [[t | t] |]; simpl;
      [eexists; repeat split | eexists; eexists; repeat split
      | eexists; repeat split].
Qed.

Lemma X14_http_failures_become_text_witness :
  exists s,
    Llava.validate_image
      (inr (Requests.Response 200
              (inr (Requests.Object {[ "response"%string := Requests.Str " Yes. " ]}))))
    = inr s
    /\ s = "Yes."%string.
Proof.
  pose proof (X14_http_failures_become_text
                (inr (Requests.Response 200
                        (inr (Requests.Object
                                {[ "response"%string := Requests.Str " Yes. " ]})))))
    as H.
  change (reply_text _) with (Some " Yes. "%string) in H.
  destruct H as (s & Hv & _ & Hs).
  exists s. split; [exact Hv |]. now rewrite Hs.
Defined.

Lemma app_assoc (a b c : string) : (a +:+ b) +:+ c = a +:+ (b +:+ c).
Proof. induction a as [| x a IH]; [reflexivity |]. now rewrite !app_cons, IH. Qed.

Lemma not_a_plant_intro (pre w post : string) :
  Py.lower w = "no"%string -> Gemine.not_a_plant (pre +:+ w +:+ post) = true.
Proof.
  intros Hw. unfold Gemine.not_a_plant. apply str_in_spec.
  exists (Py.lower pre), (Py.lower post). now rewrite !lower_app, Hw.
Qed.

Lemma lower_split (s a b : string) :
  Py.lower s = a +:+ b ->
  exists s1 s2, s = s1 +:+ s2 /\ Py.lower s1 = a /\ Py.lower s2 = b.
Proof.
  revert s. induction a as [| x a IH]; intros s H.
  - exists EmptyString, s. repeat split. exact H.
  - destruct s as [| c s]; [discriminate |].
    rewrite app_cons in H. simpl in H. injection H as Hc Hs.
    destruct (IH s Hs) as (s1 & s2 & -> & H1 & H2).
    exists (String c s1), s2. repeat split; [| exact H2].
    simpl. now rewrite Hc, H1.
Qed.

(** X15. The main script of either backend stops on a verdict exactly when
    the verdict holds the letters "no" in a row, in any case and anywhere,
    inside a longer word included. *)
Theorem X15_plant_check (verdict : string) :
  (Gemine.not_a_plant verdict = true
   <-> exists pre w post, verdict = pre +:+ w +:+ post /\ Py.lower w = "no"%string)
  /\ Llava.not_a_plant verdict = Gemine.not_a_plant verdict.
Proof.
  split; [| reflexivity]. split.
  - intros H. unfold Gemine.not_a_plant in H. apply str_in_spec in H.
    destruct H as (a & b & H).
    destruct (lower_split verdict a ("no" +:+ b) H) as (pre & rest & -> & Ha & Hr).
    destruct (lower_split rest "no" b Hr) as (w & post & -> & Hw & Hb).
    now exists pre, w, post.
  - intros (pre & w & post & -> & Hw). now apply not_a_plant_intro.
Qed.

Lemma X15_plant_check_witness : Gemine.not_a_plant "I cannot tell" = true.
Proof.
  apply (proj2 (proj1 (X15_plant_check "I cannot tell"))).
  exists "I can"%string, "no"%string, "t tell"%string. split; reflexivity.
Defined.

Example plant_check_examples :
  Gemine.not_a_plant "Yes, and it does not look wilted." = true
  /\ Gemine.not_a_plant "Yes. I do not KNOW about stress." = true
  /\ Gemine.not_a_plant "Yes, it looks wilted." = false.
Proof. repeat split. Qed.

(** X16. What the plant check of llava.py does with a failed validation: a
    reply with a status other than 200, and a reply with status 200
    without a "response" field, pass the check and let the run go on; a
    reply with status 200 whose "response" is not a string stops the run,
    because the error text says "has no attribute". *)
Theorem X16_validation_failures (r : Requests.response) :
  (Requests.status_code r <> 200%Z ->
   exists s, Llava.validate_image (inr r) = inr s /\ Llava.not_a_plant s = false)
  /\ (forall fields,
        Requests.status_code r = 200%Z ->
        Requests.body r = inr (Requests.Object fields) ->
        fields !! "response"%string = None ->
        exists s, Llava.validate_image (inr r) = inr s
                  /\ Llava.not_a_plant s = false)
  /\ (forall fields type_name,
        Requests.status_code r = 200%Z ->
        Requests.body r = inr (Requests.Object fields) ->
        fields !! "response"%string = Some (Requests.NotStr type_name) ->
        exists s, Llava.validate_image (inr r) = inr s
                  /\ Llava.not_a_plant s = true).
Proof.
  destruct r as [status body]. unfold Llava.validate_image. simpl.
  split; [| split].
  - intros Hs. apply Z.eqb_neq in Hs. rewrite Hs. simpl.
    eexists. split; reflexivity.
  - intros fields -> -> Hf. simpl. rewrite Hf. simpl.
    eexists. split; reflexivity.
  - intros fields type_name -> -> Hf. simpl. rewrite Hf. simpl.
    eexists. split; [reflexivity |].
    unfold Requests.attribute_error.
    replace ("Error: " +:+ "'" +:+ type_name +:+ "' object has no attribute '"
             +:+ "strip" +:+ "'")
      with (("Error: '" +:+ type_name +:+ "' object has ") +:+ "no"
            +:+ " attribute 'strip'")
      by (rewrite !app_assoc; reflexivity).
    exact (not_a_plant_intro _ "no" _ eq_refl).
Qed.

Lemma X16_validation_failures_witness :
  exists s, Llava.validate_image (inr (Requests.Response 503 (inl "no body"%string)))
            = inr s /\ Llava.not_a_plant s = false.
Proof.
  apply (proj1 (X16_validation_failures (Requests.Response 503 (inl "no body"%string)))).
  simpl. discriminate.
Defined.

Lemma scrub_error_prefix (e : string) :
  Py.join_if digit_or_point ("Error: " +:+ e) = Py.join_if digit_or_point e.
Proof. rewrite join_if_app. reflexivity. Qed.

(** X17. The self-rating of llava.py when its request fails.  A reply with
    a status other than 200 gives the indeterminate result; when the
    request raises, the text of the exception is parsed as if it were the
    model's answer, so that its digits and points decide the score. *)
Theorem X17_accuracy_of_failed_request :
  (forall r, Requests.status_code r <> 200%Z ->
     exists s, Llava.ask_llm (inr r) = inr s
               /\ Llava.get_accuracy_from_llm s = inr None)
  /\ (forall e,
        exists s, Llava.ask_llm (inl e) = inr s
                  /\ Llava.get_accuracy_from_llm s = Llava.get_accuracy_from_llm e).
Proof.
  split.
  - intros [status body] Hs. simpl in Hs. apply Z.eqb_neq in Hs.
    unfold Llava.ask_llm. simpl. rewrite Hs. simpl.
    eexists. split; reflexivity.
  - intros e. exists ("Error: " +:+ e). split; [reflexivity |].
    unfold Llava.get_accuracy_from_llm.
    change (fun ch => Py.isdigit ch || Ascii.eqb ch ".") with digit_or_point.
    now rewrite scrub_error_prefix.
Qed.

Lemma X17_accuracy_of_failed_request_witness :
  exists s, Llava.ask_llm (inr (Requests.Response 500 (inl "Internal Server Error"%string)))
            = inr s
            /\ Llava.get_accuracy_from_llm s = inr None.
Proof.
  apply (proj1 X17_accuracy_of_failed_request). simpl. discriminate.
Defined.

(** A refused connection: the port number in the message becomes the
    score, capped at 100. *)
Example accuracy_of_refused_connection :
  exists s, Llava.ask_llm (inl "Connection refused (port=11434)"%string) = inr s
            /\ Llava.get_accuracy_from_llm s = inr (Some 100.0).
Proof. eexists. split; [reflexivity | vm_compute; reflexivity]. Qed.
